(** * mwc-demo: the CloudFormation tools of the onboarding and provisioning agents

    A shallow embedding of
      - [src/OnboardingAgent/src/main.py]   (local template validator),
      - [src/ProvisioningAgent/src/main.py] (deploy, status, events, entrypoint),
    followed by the properties of the specification that concern them.

    Python values that come out of [yaml.safe_load] / [json.loads], and the
    dictionaries the tools return, are modelled by the type [value].  The
    responses of boto3's CloudFormation client are typed by the service
    model: they are records whose members may be absent, never [None]. *)

From Stdlib Require Import String Ascii List ZArith Bool Lia DecimalString.
Import ListNotations.
Local Open Scope list_scope.
Local Open Scope string_scope.
Set Warnings "-register-all".

(* ================================================================== *)
(** ** Python values, exceptions and the operators the tools use *)
(* ================================================================== *)

Module Py.

(** A [datetime], held by the text [str] prints for it. *)
Record datetime : Type := Datetime { dt_str : string }.

(** A Python object as produced by the YAML and JSON loaders.  A float is
    held by the text of its [repr]: it is never computed with.  Dictionary
    keys are strings, as in JSON; the source looks up string keys only, which
    no other key of a YAML mapping could equal.  Insertion order is kept, as
    Python does. *)
Inductive value : Type :=
| VNone
| VBool (b : bool)
| VInt (z : Z)
| VFloat (repr : string)
| VStr (s : string)
| VDatetime (t : datetime)
| VList (items : list value)
| VDict (entries : list (string * value)).

(** The classes of exception the source names in an [except] clause or that
    the interpreter raises on the operators below.  All of them derive from
    [Exception]; a class stands for itself and its subclasses. *)
Inductive exn_class : Type :=
| YAMLError
| JSONDecodeError
| TypeError
| KeyError
| IndexError
| OtherException (name : string).

(** An exception instance: its class and [str(e)]. *)
Record exn : Type := Exn { exn_cls : exn_class; exn_str : string }.

(** A computation that returns or raises. *)
Inductive result (A : Type) : Type :=
| Return (a : A)
| Raise (e : exn).
Arguments Return {A} a.
Arguments Raise {A} e.

Definition bind {A B} (m : result A) (k : A -> result B) : result B :=
  match m with
  | Return a => k a
  | Raise e => Raise e
  end.

Notation "x <- m ;; k" := (bind m (fun x => k))
  (at level 61, m at next level, right associativity).

(** [try: body except Exception as e: handler(e)] *)
Definition try_except {A} (body : result A) (handler : exn -> A) : A :=
  match body with
  | Return a => a
  | Raise e => handler e
  end.

Definition is_yaml_error (e : exn) : bool :=
  match exn_cls e with YAMLError => true | _ => false end.

Definition is_json_decode_error (e : exn) : bool :=
  match exn_cls e with JSONDecodeError => true | _ => false end.

(** The name of the type of [v], as the interpreter's messages print it. *)
Definition type_name (v : value) : string :=
  match v with
  | VNone => "NoneType"
  | VBool _ => "bool"
  | VInt _ => "int"
  | VFloat _ => "float"
  | VStr _ => "str"
  | VDatetime _ => "datetime.datetime"
  | VList _ => "list"
  | VDict _ => "dict"
  end.

(** [isinstance(v, dict)] and [isinstance(v, str)] *)
Definition isinstance_dict (v : value) : bool :=
  match v with VDict _ => true | _ => false end.

Definition isinstance_str (v : value) : bool :=
  match v with VStr _ => true | _ => false end.

(** Lookup in the entries of a dictionary. *)
Fixpoint lookup (key : string) (entries : list (string * value)) : option value :=
  match entries with
  | [] => None
  | (k, v) :: rest => if String.eqb k key then Some v else lookup key rest
  end.

(** [key in s] for two strings: substring test. *)
Definition substring_of (key s : string) : bool :=
  match String.index 0 key s with Some _ => true | None => false end.

Definition is_str (key : string) (v : value) : bool :=
  match v with VStr s => String.eqb s key | _ => false end.

(** [key in v], [key] a string.  Membership among the keys of a dict, the
    items of a list, the substrings of a str; any other object is not a
    container and the operator raises [TypeError].  The messages of the
    [TypeError]s here and below are worded as CPython 3.11 to 3.13 does. *)
Definition contains (key : string) (v : value) : result bool :=
  match v with
  | VDict entries =>
      Return (match lookup key entries with Some _ => true | None => false end)
  | VList items => Return (existsb (is_str key) items)
  | VStr s => Return (substring_of key s)
  | _ => Raise (Exn TypeError
                 ("argument of type '" ++ type_name v ++ "' is not iterable"))
  end.

(** [v[key]], [key] a string. *)
Definition getitem (v : value) (key : string) : result value :=
  match v with
  | VDict entries =>
      match lookup key entries with
      | Some x => Return x
      | None => Raise (Exn KeyError ("'" ++ key ++ "'"))
      end
  | VList _ =>
      Raise (Exn TypeError "list indices must be integers or slices, not str")
  | VStr _ =>
      Raise (Exn TypeError "string indices must be integers, not 'str'")
  | _ => Raise (Exn TypeError
                 ("'" ++ type_name v ++ "' object is not subscriptable"))
  end.

(** [len(v)] *)
Definition len (v : value) : result nat :=
  match v with
  | VDict entries => Return (List.length entries)
  | VList items => Return (List.length items)
  | VStr s => Return (String.length s)
  | _ => Raise (Exn TypeError
                 ("object of type '" ++ type_name v ++ "' has no len()"))
  end.

(** [str(v)].  For a list or a dict Python prints the [repr], whose quoting
    of nested strings is left to the runtime ([py_repr]). *)
Definition str (py_repr : value -> string) (v : value) : string :=
  match v with
  | VNone => "None"
  | VBool true => "True"
  | VBool false => "False"
  | VInt z => NilZero.string_of_int (Z.to_int z)
  | VFloat repr => repr
  | VStr s => s
  | VDatetime t => dt_str t
  | VList _ | VDict _ => py_repr v
  end.

(** The objects on which [in], subscripting by a string and [len] all
    raise [TypeError]. *)
Definition plain_scalar (v : value) : bool :=
  match v with
  | VNone | VBool _ | VInt _ | VFloat _ | VDatetime _ => true
  | VStr _ | VList _ | VDict _ => false
  end.

(** [r[key]] read off a returned dictionary, when it is there. *)
Definition field (key : string) (r : value) : option value :=
  match r with
  | VDict entries => lookup key entries
  | _ => None
  end.


End Py.

Import Py.

(* ================================================================== *)
(** ** OnboardingAgent/src/main.py *)
(* ================================================================== *)

Module OnboardingAgent.

Section Validator.

(** [yaml.safe_load] and [json.loads], from PyYAML and the standard
    library: pure functions of the text. *)
Variable yaml_safe_load : string -> result value.
Variable json_loads : string -> result value.

(** Lines 26-30: YAML first, JSON when the YAML loader raises [YAMLError]. *)
Definition parse_template (template : string) : result value :=
  match yaml_safe_load template with
  | Return v => Return v
  | Raise e => if is_yaml_error e then json_loads template else Raise e
  end.

(** Lines 33-45: the four checks, each appending to [errors]. *)
Definition structural_errors (template_dict : value) : result (list string) :=
  let errors := [] in
  let errors :=
    if negb (isinstance_dict template_dict)
    then (errors ++ ["Template must be a dictionary/object"])%list else errors in
  has_resources <- contains "Resources" template_dict ;;
  let errors :=
    if negb has_resources
    then (errors ++ ["Template must contain 'Resources' section"])%list else errors in
  has_resources <- contains "Resources" template_dict ;;
  not_a_dict <-
    (if has_resources
     then (r <- getitem template_dict "Resources" ;;
           Return (negb (isinstance_dict r)))
     else Return false) ;;
  let errors :=
    if not_a_dict
    then (errors ++ ["'Resources' must be a dictionary"])%list else errors in
  has_resources <- contains "Resources" template_dict ;;
  is_empty <-
    (if has_resources
     then (r <- getitem template_dict "Resources" ;;
           n <- len r ;;
           Return (Nat.eqb n 0))
     else Return false) ;;
  let errors :=
    if is_empty
    then (errors ++ ["'Resources' section cannot be empty"])%list else errors in
  Return errors.

Definition invalid (errors : list string) : value :=
  VDict [("valid", VBool false); ("errors", VList (map VStr errors))].

(** Lines 24-54, the body of the outer [try].  The [log.info] note of
    line 49 does not reach the returned value; its test still runs. *)
Definition validate_body (template : string) : result value :=
  template_dict <- parse_template template ;;
  errors <- structural_errors template_dict ;;
  _ <- contains "AWSTemplateFormatVersion" template_dict ;;
  match errors with
  | _ :: _ => Return (invalid errors)
  | [] => Return (VDict [("valid", VBool true);
                         ("message", VStr "Template structure is valid")])
  end.

(** Lines 56-61, the three [except] clauses in their order. *)
Definition validate_handler (e : exn) : value :=
  if is_json_decode_error e then invalid ["Invalid JSON: " ++ exn_str e]
  else if is_yaml_error e then invalid ["Invalid YAML: " ++ exn_str e]
  else invalid ["Validation error: " ++ exn_str e].

Definition validate_cloudformation_template (template : string) : value :=
  try_except (validate_body template) validate_handler.

End Validator.

(** The fields of a validation result. *)
Definition valid (r : value) : option bool :=
  match r with
  | VDict entries =>
      match lookup "valid" entries with
      | Some (VBool b) => Some b
      | _ => None
      end
  | _ => None
  end.

Definition errors (r : value) : list value :=
  match r with
  | VDict entries =>
      match lookup "errors" entries with
      | Some (VList l) => l
      | _ => []
      end
  | _ => []
  end.

End OnboardingAgent.

(* ================================================================== *)
(** ** ProvisioningAgent/src/main.py *)
(* ================================================================== *)

Module ProvisioningAgent.

(** *** The CloudFormation API as boto3 presents it

    Requests are keyword arguments; responses are dictionaries typed by the
    service model, in which a member the service did not send is absent. *)

Record CfnParameter : Type :=
  { ParameterKey : string; ParameterValue : string }.

Record Tag : Type := { Key : string; Value : string }.

Module CreateStack.
Record input : Type :=
  { StackName : string;
    TemplateBody : string;
    Parameters : list CfnParameter;
    Capabilities : list string;
    OnFailure : string;
    Tags : list Tag }.
Record output : Type := { StackId : option string }.
End CreateStack.

Module Output.
Record t : Type :=
  { OutputKey : option string; OutputValue : option string }.
End Output.

Module Stack.
Record t : Type :=
  { StackName : option string;
    StackStatus : option string;
    Outputs : option (list Output.t);
    CreationTime : option datetime;
    LastUpdatedTime : option datetime }.
End Stack.

Module DescribeStacks.
Record output : Type := { Stacks : option (list Stack.t) }.
End DescribeStacks.

Module StackResource.
Record t : Type :=
  { LogicalResourceId : option string;
    PhysicalResourceId : option string;
    ResourceType : option string;
    ResourceStatus : option string }.
End StackResource.

Module DescribeStackResources.
Record output : Type := { StackResources : option (list StackResource.t) }.
End DescribeStackResources.

Module StackEvent.
Record t : Type :=
  { Timestamp : option datetime;
    ResourceType : option string;
    LogicalResourceId : option string;
    ResourceStatus : option string;
    ResourceStatusReason : option string }.
End StackEvent.

Module DescribeStackEvents.
Record output : Type := { StackEvents : option (list StackEvent.t) }.
End DescribeStackEvents.

Module TemplateParameter.
Record t : Type := { ParameterKey : option string }.
End TemplateParameter.

Module ValidateTemplate.
Record output : Type :=
  { Description : option string;
    Parameters : option (list TemplateParameter.t);
    Capabilities : option (list string) }.
End ValidateTemplate.

(** One round trip to the service, as recorded on the wire. *)
Inductive api_call : Type :=
| CreateStackCall (request : CreateStack.input)
| DescribeStacksCall (StackName : string)
| DescribeStackResourcesCall (StackName : string)
| DescribeStackEventsCall (StackName : string)
| ValidateTemplateCall (TemplateBody : string).

(** [d[key]] and [d.get(key, default)] on a response member. *)
Definition subscript {A} (key : string) (member : option A) : result A :=
  match member with
  | Some a => Return a
  | None => Raise (Exn KeyError ("'" ++ key ++ "'"))
  end.

Definition get {A} (member : option A) (default : A) : A :=
  match member with
  | Some a => a
  | None => default
  end.

(** [l[0]] *)
Definition first_item {A} (l : list A) : result A :=
  match l with
  | a :: _ => Return a
  | [] => Raise (Exn IndexError "list index out of range")
  end.

(** [l[:stop]]: a negative [stop] counts from the end, clipped at 0. *)
Definition slice_to {A} (l : list A) (stop : Z) : list A :=
  if (0 <=? stop)%Z
  then firstn (Z.to_nat stop) l
  else firstn (List.length l - Z.to_nat (- stop)) l.

(** [d[key] = v] on the entries of a dict under construction. *)
Fixpoint dict_set (key : string) (v : value) (entries : list (string * value))
  : list (string * value) :=
  match entries with
  | [] => [(key, v)]
  | (k, x) :: rest =>
      if String.eqb k key then (k, v) :: rest else (k, x) :: dict_set key v rest
  end.

Section Tools.

(** The state of the remote service, and the module-level [cfn_client]:
    every method answers or raises, and may change the remote state. *)
Variable remote : Type.

Record client : Type :=
  { create_stack :
      CreateStack.input -> remote -> remote * result CreateStack.output;
    describe_stacks :
      string -> remote -> remote * result DescribeStacks.output;
    describe_stack_resources :
      string -> remote -> remote * result DescribeStackResources.output;
    describe_stack_events :
      string -> remote -> remote * result DescribeStackEvents.output;
    validate_template :
      string -> remote -> remote * result ValidateTemplate.output }.

Variable cfn_client : client.

(** The runtime's [repr], used by [str] on containers. *)
Variable py_repr : value -> string.

(** What a tool runs in: the remote state and the calls sent so far. *)
Record world : Type := World { remote_state : remote; sent : list api_call }.

Definition M (A : Type) : Type := world -> world * result A.

Definition ret {A} (a : A) : M A := fun w => (w, Return a).

Definition bindM {A B} (m : M A) (k : A -> M B) : M B :=
  fun w =>
    match m w with
    | (w', Return a) => k a w'
    | (w', Raise e) => (w', Raise e)
    end.

Definition lift {A} (r : result A) : M A := fun w => (w, r).

Notation "x <~ m ;; k" := (bindM m (fun x => k))
  (at level 61, m at next level, right associativity).

(** A method call on [cfn_client]. *)
Definition call {A} (c : api_call) (method : remote -> remote * result A)
  : M A :=
  fun w =>
    let (s, r) := method (remote_state w) in
    (World s (sent w ++ [c])%list, r).

(** [try: body except Exception as e: return handler(e)] *)
Definition try_exceptM (body : M value) (handler : exn -> value)
  : world -> world * value :=
  fun w =>
    match body w with
    | (w', Return v) => (w', v)
    | (w', Raise e) => (w', handler e)
    end.

Fixpoint mapM {A B} (f : A -> result B) (l : list A) : result (list B) :=
  match l with
  | [] => Return []
  | a :: rest =>
      b <- f a ;;
      bs <- mapM f rest ;;
      Return (b :: bs)
  end.

(** **** deploy_cloudformation_stack (lines 18-64) *)

Definition cfn_parameters_of (parameters : option (list (string * value)))
  : list CfnParameter :=
  match parameters with
  | Some ((_ :: _) as items) =>
      map (fun kv => {| ParameterKey := fst kv;
                        ParameterValue := str py_repr (snd kv) |}) items
  | _ => []
  end.

Definition create_stack_request (stack_name template_body : string)
  (parameters : option (list (string * value))) : CreateStack.input :=
  {| CreateStack.StackName := stack_name;
     CreateStack.TemplateBody := template_body;
     CreateStack.Parameters := cfn_parameters_of parameters;
     CreateStack.Capabilities :=
       ["CAPABILITY_IAM"; "CAPABILITY_NAMED_IAM"; "CAPABILITY_AUTO_EXPAND"];
     CreateStack.OnFailure := "ROLLBACK";
     CreateStack.Tags :=
       [ {| Key := "ManagedBy"; Value := "MWCAgent" |};
         {| Key := "Agent"; Value := "ProvisioningAgent" |} ] |}.

Definition deploy_body (stack_name template_body : string)
  (parameters : option (list (string * value))) : M value :=
  let request := create_stack_request stack_name template_body parameters in
  response <~ call (CreateStackCall request)
                   (create_stack cfn_client request) ;;
  stack_id <~ lift (subscript "StackId" (CreateStack.StackId response)) ;;
  ret (VDict
         [("success", VBool true);
          ("stack_id", VStr stack_id);
          ("status", VStr "CREATE_IN_PROGRESS");
          ("message", VStr ("Stack " ++ stack_name
                            ++ " deployment initiated successfully"))]).

Definition failure (what : string) (e : exn) : value :=
  VDict [("success", VBool false);
         ("error", VStr (exn_str e));
         ("message", VStr (what ++ exn_str e))].

Definition deploy_cloudformation_stack (stack_name template_body : string)
  (parameters : option (list (string * value))) : world -> world * value :=
  try_exceptM (deploy_body stack_name template_body parameters)
              (failure "Failed to deploy stack: ").

(** **** get_stack_status (lines 67-116) *)

Definition resource_record (r : StackResource.t) : result value :=
  logical_id <- subscript "LogicalResourceId" (StackResource.LogicalResourceId r) ;;
  let physical_id := get (StackResource.PhysicalResourceId r) "N/A" in
  type <- subscript "ResourceType" (StackResource.ResourceType r) ;;
  status <- subscript "ResourceStatus" (StackResource.ResourceStatus r) ;;
  Return (VDict [("logical_id", VStr logical_id);
                 ("physical_id", VStr physical_id);
                 ("type", VStr type);
                 ("status", VStr status)]).

Fixpoint outputs_of (outs : list Output.t) (acc : list (string * value))
  : result (list (string * value)) :=
  match outs with
  | [] => Return acc
  | o :: rest =>
      key <- subscript "OutputKey" (Output.OutputKey o) ;;
      outputs_of rest (dict_set key (VStr (get (Output.OutputValue o) "N/A")) acc)
  end.

Definition time_text (member : option datetime) : string :=
  str py_repr (get (option_map VDatetime member) (VStr "N/A")).

Definition status_body (stack_name : string) : M value :=
  response <~ call (DescribeStacksCall stack_name)
                   (describe_stacks cfn_client stack_name) ;;
  stacks <~ lift (subscript "Stacks" (DescribeStacks.Stacks response)) ;;
  stack <~ lift (first_item stacks) ;;
  resources_response <~ call (DescribeStackResourcesCall stack_name)
                             (describe_stack_resources cfn_client stack_name) ;;
  stack_resources <~ lift (subscript "StackResources"
      (DescribeStackResources.StackResources resources_response)) ;;
  resources <~ lift (mapM resource_record stack_resources) ;;
  outputs <~ lift (match Stack.Outputs stack with
                   | Some outs => outputs_of outs []
                   | None => Return []
                   end) ;;
  name <~ lift (subscript "StackName" (Stack.StackName stack)) ;;
  status <~ lift (subscript "StackStatus" (Stack.StackStatus stack)) ;;
  ret (VDict
         [("success", VBool true);
          ("stack_name", VStr name);
          ("status", VStr status);
          ("resources", VList resources);
          ("outputs", VDict outputs);
          ("creation_time", VStr (time_text (Stack.CreationTime stack)));
          ("last_updated", VStr (time_text (Stack.LastUpdatedTime stack)))]).

Definition get_stack_status (stack_name : string) : world -> world * value :=
  try_exceptM (status_body stack_name)
              (failure "Failed to get stack status: ").

(** **** validate_cloudformation_template, the remote one (lines 119-145) *)

Definition remote_validate_body (template_body : string) : M value :=
  response <~ call (ValidateTemplateCall template_body)
                   (validate_template cfn_client template_body) ;;
  let description := get (ValidateTemplate.Description response) "No description" in
  parameters <~ lift (mapM (fun p => subscript "ParameterKey"
                                        (TemplateParameter.ParameterKey p))
                           (get (ValidateTemplate.Parameters response) [])) ;;
  ret (VDict
         [("valid", VBool true);
          ("description", VStr description);
          ("parameters", VList (map VStr parameters));
          ("capabilities",
            VList (map VStr (get (ValidateTemplate.Capabilities response) [])));
          ("message", VStr "Template is valid")]).

Definition validate_cloudformation_template (template_body : string)
  : world -> world * value :=
  try_exceptM (remote_validate_body template_body)
    (fun e => VDict [("valid", VBool false);
                     ("error", VStr (exn_str e));
                     ("message", VStr ("Template validation failed: "
                                       ++ exn_str e))]).

(** **** get_stack_events (lines 148-184) *)

Definition format_event (e : StackEvent.t) : result value :=
  timestamp <- subscript "Timestamp" (StackEvent.Timestamp e) ;;
  resource_type <- subscript "ResourceType" (StackEvent.ResourceType e) ;;
  logical_id <- subscript "LogicalResourceId" (StackEvent.LogicalResourceId e) ;;
  status <- subscript "ResourceStatus" (StackEvent.ResourceStatus e) ;;
  let reason := get (StackEvent.ResourceStatusReason e) "N/A" in
  Return (VDict [("timestamp", VStr (str py_repr (VDatetime timestamp)));
                 ("resource_type", VStr resource_type);
                 ("logical_id", VStr logical_id);
                 ("status", VStr status);
                 ("reason", VStr reason)]).

Definition events_body (stack_name : string) (limit : Z) : M value :=
  response <~ call (DescribeStackEventsCall stack_name)
                   (describe_stack_events cfn_client stack_name) ;;
  stack_events <~ lift (subscript "StackEvents"
                          (DescribeStackEvents.StackEvents response)) ;;
  let events := slice_to stack_events limit in
  formatted_events <~ lift (mapM format_event events) ;;
  ret (VDict [("success", VBool true);
              ("events", VList formatted_events)]).

(** [limit] is [None] when the caller leaves the argument out. *)
Definition get_stack_events (stack_name : string) (limit : option Z)
  : world -> world * value :=
  let limit := match limit with Some n => n | None => 10%Z end in
  try_exceptM (events_body stack_name limit)
              (failure "Failed to get stack events: ").

(** **** invoke, the entrypoint (lines 186-228)

    The Strands [Agent] is a language model bound to the four tools.  What
    it does on a prompt is its own: it yields stream events and asks for
    tool calls in whatever order it chooses, each later step depending on
    the results it was given. *)

Inductive tool_use : Type :=
| UseValidate (template_body : string)
| UseDeploy (stack_name template_body : string)
            (parameters : option (list (string * value)))
| UseStatus (stack_name : string)
| UseEvents (stack_name : string) (limit : option Z).

Inductive stream : Type :=
| Yield (event : value) (rest : stream)
| ToolUse (use : tool_use) (resume : value -> stream)
| StopIteration.

Definition system_prompt : string :=
"You are an AWS infrastructure provisioning expert specializing in CloudFormation deployment and monitoring.

Your responsibilities:
1. Validate CloudFormation templates for correctness and best practices
2. Deploy CloudFormation stacks to AWS
3. Monitor deployment progress and handle errors
4. Provide detailed reports on deployed resources
5. Generate user-friendly documentation on how to use the provisioned infrastructure

When provisioning infrastructure:
- Always validate templates before deployment
- Use descriptive stack names
- Monitor deployment progress
- Check for errors and provide clear explanations
- Generate comprehensive reports including:
  * All provisioned resources with their IDs
  * Stack outputs and their purposes
  * How to access and use the resources
  * Next steps for the user

Be proactive in checking deployment status and providing updates.".

(** [Agent(model, system_prompt, tools).stream_async(prompt)] *)
Variable stream_async : string -> value -> stream.

Definition run_tool (use : tool_use) : world -> world * value :=
  match use with
  | UseValidate template_body => validate_cloudformation_template template_body
  | UseDeploy stack_name template_body parameters =>
      deploy_cloudformation_stack stack_name template_body parameters
  | UseStatus stack_name => get_stack_status stack_name
  | UseEvents stack_name limit => get_stack_events stack_name limit
  end.

(** Line 227: ["data" in event and isinstance(event["data"], str)];
    the text to yield when the test holds. *)
Definition text_of (event : value) : result (option string) :=
  has_data <- contains "data" event ;;
  if has_data
  then (data <- getitem event "data" ;;
        Return (match data with VStr s => Some s | _ => None end))
  else Return None.

(** What the caller of the generator observes: the fragments yielded, and
    the exception that ended the iteration, if one did. *)
Record response : Type :=
  Response { fragments : list string; raised : option exn }.

Fixpoint consume (s : stream) (w : world) : world * response :=
  match s with
  | StopIteration => (w, Response [] None)
  | ToolUse use resume =>
      let (w', r) := run_tool use w in consume (resume r) w'
  | Yield event rest =>
      match text_of event with
      | Raise e => (w, Response [] (Some e))
      | Return None => consume rest w
      | Return (Some data) =>
          let (w', out) := consume rest w in
          (w', Response (data :: fragments out) (raised out))
      end
  end.

(** [payload.get("prompt")].  The session identifier read from [context] on
    line 188 is not used afterwards. *)
Definition payload_get (payload : list (string * value)) (key : string) : value :=
  match lookup key payload with
  | Some v => v
  | None => VNone
  end.

Definition invoke (payload : list (string * value)) : world -> world * response :=
  consume (stream_async system_prompt (payload_get payload "prompt")).

(** The tool calls the agent made along the run (a trace for the proofs:
    the source keeps no such record). *)
Fixpoint tool_uses (s : stream) (w : world) : list tool_use :=
  match s with
  | StopIteration => []
  | ToolUse use resume =>
      let (w', r) := run_tool use w in use :: tool_uses (resume r) w'
  | Yield event rest =>
      match text_of event with
      | Raise _ => []
      | Return _ => tool_uses rest w
      end
  end.

(** The events of a result of [get_stack_events]. *)
Definition event_list (r : value) : list value :=
  match field "events" r with
  | Some (VList l) => l
  | _ => []
  end.

(** An event that carries the four members [format_event] subscripts. *)
Definition complete (e : StackEvent.t) : bool :=
  match StackEvent.Timestamp e, StackEvent.ResourceType e,
        StackEvent.LogicalResourceId e, StackEvent.ResourceStatus e with
  | Some _, Some _, Some _, Some _ => true
  | _, _, _, _ => false
  end.

(** [r] is the success result whose events are those of [kept], formatted
    one by one, in the order of [kept]. *)
Definition returns_events (r : value) (kept : list StackEvent.t) : Prop :=
  exists formatted,
    Forall2 (fun e d => format_event e = Return d) kept formatted
    /\ r = VDict [("success", VBool true); ("events", VList formatted)].




(** The [create_stack] requests among the calls sent, and those that a
    list of tool calls asks for. *)
Definition create_requests (calls : list api_call) : list CreateStack.input :=
  flat_map (fun c => match c with CreateStackCall request => [request] | _ => [] end)
           calls.

Definition deploy_requests (uses : list tool_use) : list CreateStack.input :=
  flat_map (fun u => match u with
                     | UseDeploy stack_name template_body parameters =>
                         [create_stack_request stack_name template_body parameters]
                     | _ => []
                     end)
           uses.

(** **** Further vocabulary for the properties below *)

(** The first member, in the order [format_event] reads them, that an
    event lacks. *)
Definition first_missing (e : StackEvent.t) : option string :=
  match StackEvent.Timestamp e with
  | None => Some "Timestamp"
  | Some _ =>
      match StackEvent.ResourceType e with
      | None => Some "ResourceType"
      | Some _ =>
          match StackEvent.LogicalResourceId e with
          | None => Some "LogicalResourceId"
          | Some _ =>
              match StackEvent.ResourceStatus e with
              | None => Some "ResourceStatus"
              | Some _ => None
              end
          end
      end
  end.

(** The last output of a list that has the key [key]. *)
Fixpoint last_with_key (key : string) (outs : list Output.t) : option Output.t :=
  match outs with
  | [] => None
  | o :: rest =>
      match last_with_key key rest with
      | Some o' => Some o'
      | None =>
          match Output.OutputKey o with
          | Some k => if String.eqb k key then Some o else None
          | None => None
          end
      end
  end.

(** A stream that yields the given events and uses no tool. *)
Definition yields (events : list value) : stream :=
  fold_right Yield StopIteration events.

(** The text parts of a list of events: the ["data"] of those that hold a
    str there. *)
Definition text_parts (events : list value) : list string :=
  flat_map (fun event => match field "data" event with
                         | Some (VStr data) => [data]
                         | _ => []
                         end)
           events.

(** Every event the agent may yield, whatever the tools answer, is a
    dict. *)
Inductive dict_events : stream -> Prop :=
| dict_events_stop : dict_events StopIteration
| dict_events_yield (entries : list (string * value)) (rest : stream) :
    dict_events rest -> dict_events (Yield (VDict entries) rest)
| dict_events_tool (use : tool_use) (resume : value -> stream) :
    (forall r, dict_events (resume r)) -> dict_events (ToolUse use resume).

End Tools.

End ProvisioningAgent.

(* ================================================================== *)
(** ** OnboardingAgent/src/main.py, the entrypoint (lines 63-99) *)
(* ================================================================== *)

Module OnboardingEntrypoint.

Section Entrypoint.

Variable yaml_safe_load : string -> result value.
Variable json_loads : string -> result value.

(** The agent has one tool, the local validator. *)
Inductive stream : Type :=
| Yield (event : value) (rest : stream)
| ToolUse (template : string) (resume : value -> stream)
| StopIteration.

Definition system_prompt : string :=
"You are an AWS CloudFormation expert specializing in generating production-grade infrastructure templates.

Your responsibilities:
1. Analyze natural language descriptions of cloud architectures
2. Generate valid, production-ready CloudFormation templates
3. Follow AWS best practices for security, reliability, and cost optimization
4. Include proper resource naming, tagging, and documentation
5. Validate templates before returning them

When generating templates:
- Use clear, descriptive resource names
- Add comments explaining complex configurations
- Include outputs for important resource identifiers
- Follow least-privilege IAM principles
- Enable encryption where applicable
- Use appropriate resource types for the use case

Always validate your generated template using the validate_cloudformation_template tool before returning it to the user.

Return templates in YAML format for better readability.".

(** [Agent(model, system_prompt, tools).stream_async(prompt)] *)
Variable stream_async : string -> value -> stream.

Fixpoint consume (s : stream) : ProvisioningAgent.response :=
  match s with
  | StopIteration => ProvisioningAgent.Response [] None
  | ToolUse template resume =>
      consume (resume (OnboardingAgent.validate_cloudformation_template
                         yaml_safe_load json_loads template))
  | Yield event rest =>
      match ProvisioningAgent.text_of event with
      | Raise e => ProvisioningAgent.Response [] (Some e)
      | Return None => consume rest
      | Return (Some data) =>
          let out := consume rest in
          ProvisioningAgent.Response
            (data :: ProvisioningAgent.fragments out)
            (ProvisioningAgent.raised out)
      end
  end.

Definition invoke (payload : list (string * value)) : ProvisioningAgent.response :=
  consume (stream_async system_prompt
             (ProvisioningAgent.payload_get payload "prompt")).

(** Every event the agent may yield, whatever the validator answers, is a
    dict. *)
Inductive dict_events : stream -> Prop :=
| dict_events_stop : dict_events StopIteration
| dict_events_yield (entries : list (string * value)) (rest : stream) :
    dict_events rest -> dict_events (Yield (VDict entries) rest)
| dict_events_tool (template : string) (resume : value -> stream) :
    (forall r, dict_events (resume r)) -> dict_events (ToolUse template resume).

End Entrypoint.

End OnboardingEntrypoint.

(* ================================================================== *)
(** ** MWCAgent/src/main.py *)
(* ================================================================== *)

Module MWCAgent.

(** *** The AgentCore client as the source reads it

    A str and the bytes of its UTF-8 encoding are the same [string] here,
    so that [encode] keeps the text and [decode] checks it. *)

Module Chunk.
Record t : Type := { bytes : option string }.
End Chunk.

Module Event.
Record t : Type := { chunk : option Chunk.t }.
End Event.

(** The response body: iterating it gives events, ends, or raises. *)
Inductive event_stream : Type :=
| NextEvent (event : Event.t) (rest : event_stream)
| EndOfEvents
| StreamError (e : exn).

Module InvokeAgentRuntime.
Record input : Type :=
  { agentRuntimeArn : string; qualifier : string; payload : string }.
Record output : Type := { body : option event_stream }.
End InvokeAgentRuntime.

(** The body made of the given events, read to its end. *)
Definition body_of (events : list Event.t) : event_stream :=
  fold_right NextEvent EndOfEvents events.

(** The body that gives the events and then raises. *)
Definition broken_body (events : list Event.t) (e : exn) : event_stream :=
  fold_right NextEvent (StreamError e) events.

(** The bytes carried by the events that have a chunk with bytes. *)
Definition chunk_bytes (events : list Event.t) : list string :=
  flat_map (fun event =>
              match Event.chunk event with
              | Some chunk =>
                  match Chunk.bytes chunk with
                  | Some b => [b]
                  | None => []
                  end
              | None => []
              end)
           events.

Section Tools.

Variable remote : Type.

(** [agentcore_client.invoke_agent_runtime] *)
Variable invoke_agent_runtime :
  InvokeAgentRuntime.input -> remote -> remote * result InvokeAgentRuntime.output.

(** The two environment variables read at import (lines 14-15); the empty
    string when unset. *)
Variable ONBOARDING_AGENT_ARN : string.
Variable PROVISIONING_AGENT_ARN : string.

(** [json.dumps] and [bytes.decode('utf-8')] of the runtime. *)
Variable json_dumps : value -> string.
Variable decode_utf8 : string -> result string.

(** [str.encode('utf-8')] *)
Definition encode_utf8 (s : string) : string := s.

(** The remote state, the invocations sent and the lines given to
    [log.error]. *)
Record world : Type :=
  World { remote_state : remote;
          invoked : list InvokeAgentRuntime.input;
          error_log : list string }.

(** Lines 46-52 and 94-100: the loop over [response['body']]. *)
Fixpoint read_body (body : event_stream) (result : string) : Py.result string :=
  match body with
  | EndOfEvents => Return result
  | StreamError e => Raise e
  | NextEvent event rest =>
      match Event.chunk event with
      | Some chunk =>
          match Chunk.bytes chunk with
          | Some b =>
              text <- decode_utf8 b ;;
              read_body rest (result ++ text)
          | None => read_body rest result
          end
      | None => read_body rest result
      end
  end.

(** The body of the [try] of either tool: one invocation, then the loop. *)
Definition call_body (arn : string) (prompt : string) (w : world)
  : world * Py.result string :=
  let payload := json_dumps (VDict [("prompt", VStr prompt)]) in
  let request :=
    {| InvokeAgentRuntime.agentRuntimeArn := arn;
       InvokeAgentRuntime.qualifier := "DEFAULT";
       InvokeAgentRuntime.payload := encode_utf8 payload |} in
  let (s, r) := invoke_agent_runtime request (remote_state w) in
  let w' := World s (invoked w ++ [request])%list (error_log w) in
  (w',
   response <- r ;;
   body <- ProvisioningAgent.subscript "body" (InvokeAgentRuntime.body response) ;;
   read_body body "").

(** [log.error(line)] *)
Definition log_error (line : string) (w : world) : world :=
  World (remote_state w) (invoked w) (error_log w ++ [line])%list.

(** **** call_onboarding_agent (lines 20-66) *)
Definition call_onboarding_agent (architecture_description : string)
  : world -> world * value :=
  fun w =>
    if String.eqb ONBOARDING_AGENT_ARN ""
    then (w, VDict [("success", VBool false);
                    ("error",
                      VStr "ONBOARDING_AGENT_ARN environment variable not set")])
    else
      match call_body ONBOARDING_AGENT_ARN architecture_description w with
      | (w', Return result) =>
          (w', VDict [("success", VBool true);
                      ("template", VStr result);
                      ("message",
                        VStr "CloudFormation template generated successfully")])
      | (w', Raise e) =>
          (log_error ("Error calling Onboarding Agent: " ++ exn_str e) w',
           VDict [("success", VBool false);
                  ("error", VStr (exn_str e));
                  ("message",
                    VStr ("Failed to call Onboarding Agent: " ++ exn_str e))])
      end.

(** **** call_provisioning_agent (lines 68-114) *)
Definition call_provisioning_agent (prompt : string) : world -> world * value :=
  fun w =>
    if String.eqb PROVISIONING_AGENT_ARN ""
    then (w, VDict [("success", VBool false);
                    ("error",
                      VStr "PROVISIONING_AGENT_ARN environment variable not set")])
    else
      match call_body PROVISIONING_AGENT_ARN prompt w with
      | (w', Return result) =>
          (w', VDict [("success", VBool true);
                      ("result", VStr result);
                      ("message", VStr "Provisioning completed")])
      | (w', Raise e) =>
          (log_error ("Error calling Provisioning Agent: " ++ exn_str e) w',
           VDict [("success", VBool false);
                  ("error", VStr (exn_str e));
                  ("message",
                    VStr ("Failed to call Provisioning Agent: " ++ exn_str e))])
      end.

(** **** invoke, the entrypoint (lines 116-150) *)

Inductive tool_use : Type :=
| UseOnboarding (architecture_description : string)
| UseProvisioning (prompt : string).

Inductive stream : Type :=
| Yield (event : value) (rest : stream)
| ToolUse (use : tool_use) (resume : value -> stream)
| StopIteration.

Definition system_prompt : string :=
"You are the MWC Orchestrator Agent, coordinating AWS infrastructure onboarding and provisioning.

Your workflow:
1. Receive natural language descriptions of cloud architectures from users
2. Call the Onboarding Agent to generate CloudFormation templates
3. Review the generated template with the user
4. Call the Provisioning Agent to deploy the infrastructure
5. Provide comprehensive reports on the deployed resources

When orchestrating:
- Break down complex requests into clear steps
- Use call_onboarding_agent for CloudFormation template generation
- Use call_provisioning_agent for infrastructure deployment
- Provide clear status updates at each stage
- Handle errors gracefully and explain issues to users
- Generate user-friendly summaries of what was created

Always confirm with users before deploying infrastructure to AWS.".

(** [Agent(model, system_prompt, tools).stream_async(prompt)] *)
Variable stream_async : string -> value -> stream.

Definition run_tool (use : tool_use) : world -> world * value :=
  match use with
  | UseOnboarding architecture_description =>
      call_onboarding_agent architecture_description
  | UseProvisioning prompt => call_provisioning_agent prompt
  end.

Fixpoint consume (s : stream) (w : world) : world * ProvisioningAgent.response :=
  match s with
  | StopIteration => (w, ProvisioningAgent.Response [] None)
  | ToolUse use resume =>
      let (w', r) := run_tool use w in consume (resume r) w'
  | Yield event rest =>
      match ProvisioningAgent.text_of event with
      | Raise e => (w, ProvisioningAgent.Response [] (Some e))
      | Return None => consume rest w
      | Return (Some data) =>
          let (w', out) := consume rest w in
          (w', ProvisioningAgent.Response
                 (data :: ProvisioningAgent.fragments out)
                 (ProvisioningAgent.raised out))
      end
  end.

Definition invoke (payload : list (string * value))
  : world -> world * ProvisioningAgent.response :=
  consume (stream_async system_prompt
             (ProvisioningAgent.payload_get payload "prompt")).

(** The tool calls the agent made along the run (a trace for the proofs). *)
Fixpoint tool_uses (s : stream) (w : world) : list tool_use :=
  match s with
  | StopIteration => []
  | ToolUse use resume =>
      let (w', r) := run_tool use w in use :: tool_uses (resume r) w'
  | Yield event rest =>
      match ProvisioningAgent.text_of event with
      | Raise _ => []
      | Return _ => tool_uses rest w
      end
  end.

(** The invocations a list of tool calls asks for: one per call whose
    agent has its ARN set. *)
Definition invocations_of (uses : list tool_use) : list InvokeAgentRuntime.input :=
  flat_map (fun use =>
    match use with
    | UseOnboarding architecture_description =>
        if String.eqb ONBOARDING_AGENT_ARN "" then []
        else [ {| InvokeAgentRuntime.agentRuntimeArn := ONBOARDING_AGENT_ARN;
                  InvokeAgentRuntime.qualifier := "DEFAULT";
                  InvokeAgentRuntime.payload :=
                    encode_utf8 (json_dumps
                      (VDict [("prompt", VStr architecture_description)])) |} ]
    | UseProvisioning prompt =>
        if String.eqb PROVISIONING_AGENT_ARN "" then []
        else [ {| InvokeAgentRuntime.agentRuntimeArn := PROVISIONING_AGENT_ARN;
                  InvokeAgentRuntime.qualifier := "DEFAULT";
                  InvokeAgentRuntime.payload :=
                    encode_utf8 (json_dumps (VDict [("prompt", VStr prompt)])) |} ]
    end) uses.

End Tools.

End MWCAgent.

(* ================================================================== *)
(** ** Stand-ins for the external collaborators

    Loaders that answer as PyYAML and [json] do on the texts listed, and a
    CloudFormation client over a remote state that is the list of stacks
    created so far.  They serve to run the tools on concrete inputs. *)
(* ================================================================== *)

Module Doubles.

Fixpoint answer (table : list (string * result value)) (otherwise : result value)
  (text : string) : result value :=
  match table with
  | [] => otherwise
  | (t, r) :: rest => if String.eqb t text then r else answer rest otherwise text
  end.

Definition minimal_template : string :=
  "Resources: {Bucket: {Type: 'AWS::S3::Bucket'}}".

Definition yaml_safe_load : string -> result value :=
  answer
    [ ("", Return VNone);
      ("42", Return (VInt 42));
      ("Resources", Return (VStr "Resources"));
      ("Resources: 5", Return (VDict [("Resources", VInt 5)]));
      ("Resources: []", Return (VDict [("Resources", VList [])]));
      ("Description: no resources",
        Return (VDict [("Description", VStr "no resources")]));
      (minimal_template,
        Return (VDict [("Resources",
                  VDict [("Bucket",
                    VDict [("Type", VStr "AWS::S3::Bucket")])])])) ]
    (Raise (Exn YAMLError
       "while parsing a flow node: expected the node content, but found '<stream end>'")).

Definition json_loads : string -> result value :=
  answer []
    (Raise (Exn JSONDecodeError "Expecting value: line 1 column 1 (char 0)")).

(** A client over the list of the names of the stacks created so far. *)
Definition stack_events : list ProvisioningAgent.StackEvent.t :=
  map (fun n =>
         {| ProvisioningAgent.StackEvent.Timestamp :=
              Some (Datetime ("2024-01-01 00:00:" ++ NilZero.string_of_uint (Nat.to_uint n)));
            ProvisioningAgent.StackEvent.ResourceType := Some "AWS::S3::Bucket";
            ProvisioningAgent.StackEvent.LogicalResourceId := Some "Bucket";
            ProvisioningAgent.StackEvent.ResourceStatus := Some "CREATE_IN_PROGRESS";
            ProvisioningAgent.StackEvent.ResourceStatusReason := None |})
      (rev (seq 10 12)).

Definition known (name : string) (stacks : list string) : bool :=
  existsb (String.eqb name) stacks.

Definition not_found {A} (name : string) : result A :=
  Raise (Exn (OtherException "ClientError")
           ("An error occurred (ValidationError): Stack with id " ++ name
            ++ " does not exist")).

Definition cfn_client : ProvisioningAgent.client (list string) :=
  {| ProvisioningAgent.create_stack := fun request stacks =>
       let name := ProvisioningAgent.CreateStack.StackName request in
       if known name stacks
       then (stacks,
             Raise (Exn (OtherException "ClientError")
                      ("An error occurred (AlreadyExistsException): Stack ["
                       ++ name ++ "] already exists")))
       else ((stacks ++ [name])%list,
             Return {| ProvisioningAgent.CreateStack.StackId :=
                         Some ("arn:aws:cloudformation:us-east-1:123456789012:stack/"
                               ++ name) |});
     ProvisioningAgent.describe_stacks := fun name stacks =>
       if known name stacks
       then (stacks,
             Return {| ProvisioningAgent.DescribeStacks.Stacks := Some
               [ {| ProvisioningAgent.Stack.StackName := Some name;
                    ProvisioningAgent.Stack.StackStatus := Some "CREATE_IN_PROGRESS";
                    ProvisioningAgent.Stack.Outputs := None;
                    ProvisioningAgent.Stack.CreationTime :=
                      Some (Datetime "2024-01-01 00:00:00+00:00");
                    ProvisioningAgent.Stack.LastUpdatedTime := None |} ] |})
       else (stacks, not_found name);
     ProvisioningAgent.describe_stack_resources := fun name stacks =>
       if known name stacks
       then (stacks,
             Return {| ProvisioningAgent.DescribeStackResources.StackResources := Some
               [ {| ProvisioningAgent.StackResource.LogicalResourceId := Some "Bucket";
                    ProvisioningAgent.StackResource.PhysicalResourceId := None;
                    ProvisioningAgent.StackResource.ResourceType := Some "AWS::S3::Bucket";
                    ProvisioningAgent.StackResource.ResourceStatus :=
                      Some "CREATE_IN_PROGRESS" |} ] |})
       else (stacks, not_found name);
     ProvisioningAgent.describe_stack_events := fun name stacks =>
       if known name stacks
       then (stacks,
             Return {| ProvisioningAgent.DescribeStackEvents.StackEvents :=
                         Some stack_events |})
       else (stacks, not_found name);
     ProvisioningAgent.validate_template := fun body stacks =>
       (stacks,
        Return {| ProvisioningAgent.ValidateTemplate.Description := None;
                  ProvisioningAgent.ValidateTemplate.Parameters := None;
                  ProvisioningAgent.ValidateTemplate.Capabilities := None |}) |}.

Definition py_repr (v : value) : string := "[...]".

(** Nothing created yet, nothing sent; and the same with "demo-stack"
    already there. *)
Definition fresh : ProvisioningAgent.world (list string) :=
  ProvisioningAgent.World (list string) [] [].

Definition deployed : ProvisioningAgent.world (list string) :=
  ProvisioningAgent.World (list string) ["demo-stack"] [].

(** An agent that deploys what it is given without validating first. *)
Definition hasty_agent (system_prompt : string) (prompt : value)
  : ProvisioningAgent.stream :=
  ProvisioningAgent.ToolUse
    (ProvisioningAgent.UseDeploy "demo-stack" "Description: no resources" None)
    (fun _ => ProvisioningAgent.StopIteration).

(** An AgentCore runtime that answers every invocation of a known agent
    with the same three events, and keeps the payloads it received. *)
Definition quote : string := String (Ascii.ascii_of_nat 34) EmptyString.

Definition json_dumps (v : value) : string :=
  match v with
  | VDict [(key, VStr text)] =>
      "{" ++ quote ++ key ++ quote ++ ": " ++ quote ++ text ++ quote ++ "}"
  | _ => "null"
  end.

Definition decode_utf8 (b : string) : result string := Return b.

Definition answer_events : list MWCAgent.Event.t :=
  [ {| MWCAgent.Event.chunk := Some {| MWCAgent.Chunk.bytes := Some "Resources: " |} |};
    {| MWCAgent.Event.chunk := None |};
    {| MWCAgent.Event.chunk := Some {| MWCAgent.Chunk.bytes := None |} |};
    {| MWCAgent.Event.chunk :=
         Some {| MWCAgent.Chunk.bytes := Some "{Bucket: {Type: 'AWS::S3::Bucket'}}" |} |} ].

Definition invoke_agent_runtime (request : MWCAgent.InvokeAgentRuntime.input)
  (received : list string)
  : list string * result MWCAgent.InvokeAgentRuntime.output :=
  if String.prefix "arn:aws:bedrock-agentcore:"
       (MWCAgent.InvokeAgentRuntime.agentRuntimeArn request)
  then ((received ++ [MWCAgent.InvokeAgentRuntime.payload request])%list,
        Return {| MWCAgent.InvokeAgentRuntime.body :=
                    Some (MWCAgent.body_of answer_events) |})
  else (received,
        Raise (Exn (OtherException "ResourceNotFoundException")
                 "An error occurred (ResourceNotFoundException): runtime not found")).

Definition onboarding_arn : string :=
  "arn:aws:bedrock-agentcore:us-east-1:905767016260:runtime/OnboardingAgent_Agent-Pgs8nUGuuS".

Definition quiet : MWCAgent.world (list string) :=
  MWCAgent.World (list string) [] [] [].

(** Agents that only talk: four events, two of them with text. *)
Definition talk : list value :=
  [ VDict [("data", VStr "Deploying ")];
    VDict [("event", VDict [("messageStart", VDict [("role", VStr "assistant")])])];
    VDict [("data", VInt 7)];
    VDict [("data", VStr "demo-stack")] ].

Definition talking_agent (system_prompt : string) (prompt : value)
  : ProvisioningAgent.stream :=
  ProvisioningAgent.yields talk.

(** A backend with nothing to remember, whose second event lacks its
    resource type and whose template has two parameters. *)
Definition unavailable {A} : result A :=
  Raise (Exn (OtherException "EndpointConnectionError")
           "Could not connect to the endpoint URL").

Definition ragged_events : list ProvisioningAgent.StackEvent.t :=
  [ {| ProvisioningAgent.StackEvent.Timestamp := Some (Datetime "2024-01-01 00:00:02");
       ProvisioningAgent.StackEvent.ResourceType := Some "AWS::CloudFormation::Stack";
       ProvisioningAgent.StackEvent.LogicalResourceId := Some "demo-stack";
       ProvisioningAgent.StackEvent.ResourceStatus := Some "CREATE_IN_PROGRESS";
       ProvisioningAgent.StackEvent.ResourceStatusReason := Some "User Initiated" |};
    {| ProvisioningAgent.StackEvent.Timestamp := Some (Datetime "2024-01-01 00:00:01");
       ProvisioningAgent.StackEvent.ResourceType := None;
       ProvisioningAgent.StackEvent.LogicalResourceId := Some "demo-stack";
       ProvisioningAgent.StackEvent.ResourceStatus := Some "REVIEW_IN_PROGRESS";
       ProvisioningAgent.StackEvent.ResourceStatusReason := None |} ].

Definition ragged_client : ProvisioningAgent.client unit :=
  {| ProvisioningAgent.create_stack := fun _ u => (u, unavailable);
     ProvisioningAgent.describe_stacks := fun _ u => (u, unavailable);
     ProvisioningAgent.describe_stack_resources := fun _ u => (u, unavailable);
     ProvisioningAgent.describe_stack_events := fun _ u =>
       (u, Return {| ProvisioningAgent.DescribeStackEvents.StackEvents :=
                       Some ragged_events |});
     ProvisioningAgent.validate_template := fun _ u =>
       (u, Return
             {| ProvisioningAgent.ValidateTemplate.Description := None;
                ProvisioningAgent.ValidateTemplate.Parameters := Some
                  [ {| ProvisioningAgent.TemplateParameter.ParameterKey :=
                         Some "BucketName" |};
                    {| ProvisioningAgent.TemplateParameter.ParameterKey :=
                         Some "Environment" |} ];
                ProvisioningAgent.ValidateTemplate.Capabilities :=
                  Some ["CAPABILITY_IAM"] |}) |}.

Definition nowhere : ProvisioningAgent.world unit :=
  ProvisioningAgent.World unit tt [].

(** The YAML loader again, knowing one more text. *)
Definition yaml_safe_load_more (text : string) : result value :=
  if String.eqb text "AWSTemplateFormatVersion: '2010-09-09'"
  then Return (VDict [("AWSTemplateFormatVersion", VStr "2010-09-09")])
  else yaml_safe_load text.

End Doubles.

(** The stand-ins at work, on the scenarios of the specification. *)

Example substring_of_resources :
  substring_of "Resources" "MyResources: []" = true
  /\ substring_of "Resources" "resources" = false.
Proof. split; reflexivity. Qed.

Example str_of_scalars :
  map (str Doubles.py_repr) [VNone; VBool true; VInt 0; VInt (-12); VStr "N/A"]
  = ["None"; "True"; "0"; "-12"; "N/A"].
Proof. reflexivity. Qed.

Example validate_minimal_template :
  OnboardingAgent.validate_cloudformation_template
    Doubles.yaml_safe_load Doubles.json_loads Doubles.minimal_template
  = VDict [("valid", VBool true); ("message", VStr "Template structure is valid")].
Proof. reflexivity. Qed.

Example validate_empty_list_of_resources :
  OnboardingAgent.validate_cloudformation_template
    Doubles.yaml_safe_load Doubles.json_loads "Resources: []"
  = OnboardingAgent.invalid
      ["'Resources' must be a dictionary"; "'Resources' section cannot be empty"].
Proof. reflexivity. Qed.

Example validate_top_level_string :
  OnboardingAgent.validate_cloudformation_template
    Doubles.yaml_safe_load Doubles.json_loads "Resources"
  = OnboardingAgent.invalid
      ["Validation error: string indices must be integers, not 'str'"].
Proof. reflexivity. Qed.

Example status_of_unknown_stack :
  ProvisioningAgent.get_stack_status (list string)
    Doubles.cfn_client Doubles.py_repr "nonexistent-stack-xyz" Doubles.fresh
  = (ProvisioningAgent.World (list string) []
       [ProvisioningAgent.DescribeStacksCall "nonexistent-stack-xyz"],
     VDict [("success", VBool false);
            ("error", VStr "An error occurred (ValidationError): Stack with id nonexistent-stack-xyz does not exist");
            ("message", VStr "Failed to get stack status: An error occurred (ValidationError): Stack with id nonexistent-stack-xyz does not exist")]).
Proof. reflexivity. Qed.

Example status_of_demo_stack :
  snd (ProvisioningAgent.get_stack_status (list string)
         Doubles.cfn_client Doubles.py_repr "demo-stack" Doubles.deployed)
  = VDict [("success", VBool true);
           ("stack_name", VStr "demo-stack");
           ("status", VStr "CREATE_IN_PROGRESS");
           ("resources",
             VList [VDict [("logical_id", VStr "Bucket");
                           ("physical_id", VStr "N/A");
                           ("type", VStr "AWS::S3::Bucket");
                           ("status", VStr "CREATE_IN_PROGRESS")]]);
           ("outputs", VDict []);
           ("creation_time", VStr "2024-01-01 00:00:00+00:00");
           ("last_updated", VStr "N/A")].
Proof. reflexivity. Qed.

Example slices :
  ProvisioningAgent.slice_to [1; 2; 3; 4; 5] 3%Z = [1; 2; 3]
  /\ ProvisioningAgent.slice_to [1; 2; 3; 4; 5] 9%Z = [1; 2; 3; 4; 5]
  /\ ProvisioningAgent.slice_to [1; 2; 3; 4; 5] 0%Z = []
  /\ ProvisioningAgent.slice_to [1; 2; 3; 4; 5] (-2)%Z = [1; 2; 3]
  /\ ProvisioningAgent.slice_to [1; 2; 3; 4; 5] (-7)%Z = [].
Proof. repeat split. Qed.

(* ================================================================== *)
(** ** Properties of the local validator *)
(* ================================================================== *)

Section ValidatorProperties.

Import OnboardingAgent.

Variable yaml_safe_load : string -> result value.
Variable json_loads : string -> result value.

Local Abbreviation parse := (parse_template yaml_safe_load json_loads).
Local Abbreviation validate :=
  (OnboardingAgent.validate_cloudformation_template yaml_safe_load json_loads).

Lemma handler_invalid (e : exn) :
  exists msg, validate_handler e = invalid [msg].
Proof.
  unfold validate_handler.
  destruct (is_json_decode_error e); [eexists; reflexivity|].
  destruct (is_yaml_error e); eexists; reflexivity.
Qed.

Lemma handler_other (e : exn) :
  exn_cls e = TypeError ->
  validate_handler e = invalid ["Validation error: " ++ exn_str e].
Proof.
  intros H. unfold validate_handler, is_json_decode_error, is_yaml_error.
  now rewrite H.
Qed.

Lemma validate_parsed (template : string) (v : value) :
  parse template = Return v ->
  validate template =
    try_except
      (errors <- structural_errors v ;;
       _ <- contains "AWSTemplateFormatVersion" v ;;
       match errors with
       | _ :: _ => Return (invalid errors)
       | [] => Return (VDict [("valid", VBool true);
                              ("message", VStr "Template structure is valid")])
       end)
      validate_handler.
Proof.
  intros H. unfold OnboardingAgent.validate_cloudformation_template, validate_body.
  now rewrite H.
Qed.

(** The checks of lines 38-45 on a dictionary. *)
Lemma structural_errors_dict (entries : list (string * value)) :
  structural_errors (VDict entries) =
    match lookup "Resources" entries with
    | None => Return ["Template must contain 'Resources' section"]
    | Some r =>
        n <- len r ;;
        Return ((if negb (isinstance_dict r)
                 then ["'Resources' must be a dictionary"] else [])
                ++ (if Nat.eqb n 0
                    then ["'Resources' section cannot be empty"] else []))%list
    end.
Proof.
  unfold structural_errors. cbn [contains isinstance_dict negb bind getitem].
  destruct (lookup "Resources" entries) as [r|]; [|reflexivity].
  cbn [bind negb].
  destruct (len r) as [n|e]; cbn [bind]; [|reflexivity].
  destruct (isinstance_dict r), (Nat.eqb n 0); reflexivity.
Qed.

(** C2 (defect in the code).  When the text loads to [None], a bool, a
    number or a date, line 36 records "Template must be a
      dictionary/object", but the membership test of line 38 then raises
    [TypeError]; the handler of line 60 returns only its own message and
    the recorded error is lost. *)
Theorem validate_scalar_loses_error :
  forall (template : string) (v : value),
    parse template = Return v ->
    plain_scalar v = true ->
    validate template =
      invalid ["Validation error: argument of type '" ++ type_name v
               ++ "' is not iterable"]
    /\ valid (validate template) = Some false
    /\ ~ In (VStr "Template must be a dictionary/object")
            (errors (validate template)).
Proof.
  intros template v Hparse Hscalar.
  rewrite (validate_parsed _ _ Hparse).
  destruct v; try discriminate Hscalar; cbn;
    (split; [reflexivity | split; [reflexivity | intros [H|[]]; discriminate H]]).
Qed.

(** The same loss on a top-level string that has "Resources" in it:
    line 41 subscripts the string. *)
Lemma validate_str_with_resources (template s : string) :
  parse template = Return (VStr s) ->
  substring_of "Resources" s = true ->
  validate template =
    invalid ["Validation error: string indices must be integers, not 'str'"].
Proof.
  intros Hparse Hsub. rewrite (validate_parsed _ _ Hparse).
  unfold structural_errors. cbn [contains bind]. rewrite Hsub. reflexivity.
Qed.

(** Where the later checks do not raise, the error of line 36 is kept:
    a list or a string without "Resources" in it. *)
Lemma validate_non_mapping_kept (template : string) (v : value) :
  parse template = Return v ->
  isinstance_dict v = false ->
  contains "Resources" v = Return false ->
  validate template =
    invalid ["Template must be a dictionary/object";
             "Template must contain 'Resources' section"].
Proof.
  intros Hparse Hdict Hin. rewrite (validate_parsed _ _ Hparse).
  unfold structural_errors. rewrite Hdict, Hin. cbn [negb bind app].
  destruct v; try discriminate Hin; try discriminate Hdict; cbn in *.
  - destruct (substring_of "AWSTemplateFormatVersion" s); reflexivity.
  - destruct (existsb (is_str "AWSTemplateFormatVersion") items); reflexivity.
Qed.

(** What the validator returns on a dictionary whose 'Resources' has a
    length. *)
Lemma validate_dict (template : string) (entries : list (string * value)) :
  parse template = Return (VDict entries) ->
  validate template =
    match lookup "Resources" entries with
    | None => invalid ["Template must contain 'Resources' section"]
    | Some r =>
        match len r with
        | Raise e => validate_handler e
        | Return n =>
            match isinstance_dict r, Nat.eqb n 0 with
            | true, false =>
                VDict [("valid", VBool true);
                       ("message", VStr "Template structure is valid")]
            | true, true => invalid ["'Resources' section cannot be empty"]
            | false, false => invalid ["'Resources' must be a dictionary"]
            | false, true => invalid ["'Resources' must be a dictionary";
                                      "'Resources' section cannot be empty"]
            end
        end
    end.
Proof.
  intros Hparse. rewrite (validate_parsed _ _ Hparse).
  rewrite structural_errors_dict.
  destruct (lookup "Resources" entries) as [r|]; [|reflexivity].
  destruct (len r) as [n|e]; [|reflexivity].
  cbn [bind contains].
  destruct (isinstance_dict r), (Nat.eqb n 0); reflexivity.
Qed.

(** The three structural errors where they are reported (C3, the part the
    code meets): 'Resources' absent; present, sized and not a mapping;
    present and of length 0; and both of the last two for an empty list. *)
Lemma validate_resources_reported (template : string)
  (entries : list (string * value)) :
  parse template = Return (VDict entries) ->
  (lookup "Resources" entries = None ->
     valid (validate template) = Some false
     /\ In (VStr "Template must contain 'Resources' section")
           (errors (validate template)))
  /\ (forall r n, lookup "Resources" entries = Some r -> len r = Return n ->
        isinstance_dict r = false ->
        valid (validate template) = Some false
        /\ In (VStr "'Resources' must be a dictionary")
              (errors (validate template)))
  /\ (forall r, lookup "Resources" entries = Some r -> len r = Return 0 ->
        valid (validate template) = Some false
        /\ In (VStr "'Resources' section cannot be empty")
              (errors (validate template)))
  /\ (lookup "Resources" entries = Some (VList []) ->
        validate template =
          invalid ["'Resources' must be a dictionary";
                   "'Resources' section cannot be empty"]).
Proof.
  intros Hparse. rewrite (validate_dict _ _ Hparse). repeat split.
  - now rewrite H.
  - rewrite H. cbn. now left.
  - rewrite H, H0, H1. now destruct (Nat.eqb n 0).
  - rewrite H, H0, H1. destruct (Nat.eqb n 0); cbn; now left.
  - rewrite H, H0. now destruct (isinstance_dict r).
  - rewrite H, H0. destruct (isinstance_dict r); cbn; [left|right; left]; reflexivity.
  - intros H. now rewrite H.
Qed.

(** C3 (defect in the code).  For a mapping whose 'Resources' is [None], a
    bool, a number or a date, line 42 records "'Resources' must be a
    dictionary", but [len] on line 44 then raises [TypeError]; the handler
    of line 60 returns only its own message and the recorded error is
    lost. *)
Theorem validate_unsized_resources_loses_error :
  forall (template : string) (entries : list (string * value)) (r : value),
    parse template = Return (VDict entries) ->
    lookup "Resources" entries = Some r ->
    plain_scalar r = true ->
    validate template =
      invalid ["Validation error: object of type '" ++ type_name r
               ++ "' has no len()"]
    /\ valid (validate template) = Some false
    /\ ~ In (VStr "'Resources' must be a dictionary")
            (errors (validate template)).
Proof.
  intros template entries r Hparse Hres Hscalar.
  rewrite (validate_dict _ _ Hparse), Hres.
  destruct r; try discriminate Hscalar; cbn;
    (split; [reflexivity | split; [reflexivity | intros [H|[]]; discriminate H]]).
Qed.

(** C6.  The YAML loader is tried first and the JSON loader is consulted
    only when it raises [YAMLError]; when the JSON loader then raises
    [JSONDecodeError] the result is [valid = False] with the single error
    "Invalid JSON: ..." of the format tried last. *)
Theorem validate_yaml_then_json :
  forall (template : string),
    (forall v, yaml_safe_load template = Return v ->
       parse template = Return v)
    /\ (forall e, yaml_safe_load template = Raise e -> is_yaml_error e = false ->
          parse template = Raise e)
    /\ (forall e, yaml_safe_load template = Raise e -> is_yaml_error e = true ->
          parse template = json_loads template)
    /\ (forall e1 e2,
          yaml_safe_load template = Raise e1 -> is_yaml_error e1 = true ->
          json_loads template = Raise e2 -> is_json_decode_error e2 = true ->
          validate template = invalid ["Invalid JSON: " ++ exn_str e2]
          /\ valid (validate template) = Some false
          /\ errors (validate template) = [VStr ("Invalid JSON: " ++ exn_str e2)]
          /\ String.prefix "Invalid" ("Invalid JSON: " ++ exn_str e2) = true).
Proof.
  intros template. unfold parse_template. repeat split.
  - intros v H. now rewrite H.
  - intros e H Hy. now rewrite H, Hy.
  - intros e H Hy. now rewrite H, Hy.
  - unfold OnboardingAgent.validate_cloudformation_template, validate_body,
      parse_template, validate_handler.
    rewrite H, H0, H1. cbn. now rewrite H2.
  - unfold OnboardingAgent.validate_cloudformation_template, validate_body,
      parse_template, validate_handler.
    rewrite H, H0, H1. cbn. now rewrite H2.
  - unfold OnboardingAgent.validate_cloudformation_template, validate_body,
      parse_template, validate_handler.
    rewrite H, H0, H1. cbn. now rewrite H2.
Qed.

(** C7.  A text the validator accepts loads, by the same two-step parse, to
    a mapping that has a 'Resources' key whose value is a non-empty
    mapping. *)
Theorem validate_accepts_only_resources :
  forall (template : string),
    valid (validate template) = Some true ->
    exists entries resources,
      parse template = Return (VDict entries)
      /\ lookup "Resources" entries = Some (VDict resources)
      /\ resources <> [].
Proof.
  intros template Hvalid.
  destruct (parse template) as [v|e] eqn:Hparse.
  - destruct v as [| b | z | f | s | t | items | entries].
    8: { rewrite (validate_dict _ _ Hparse) in Hvalid.
         destruct (lookup "Resources" entries) as [r|] eqn:Hres;
           [|discriminate Hvalid].
         destruct (len r) as [n|e] eqn:Hlen.
         - destruct r; cbn in Hlen, Hvalid;
             try discriminate Hlen;
             try (destruct (Nat.eqb n 0); discriminate Hvalid).
           exists entries, entries0. repeat split; trivial.
           intros ->. injection Hlen as <-. discriminate Hvalid.
         - destruct (handler_invalid e) as [msg Hmsg]. rewrite Hmsg in Hvalid.
           discriminate Hvalid. }
    all: rewrite (validate_parsed _ _ Hparse) in Hvalid.
    all: try (cbn in Hvalid; discriminate Hvalid).
    + unfold structural_errors in Hvalid. cbn [contains bind] in Hvalid.
      destruct (substring_of "Resources" s); cbn in Hvalid;
        [discriminate Hvalid|].
      destruct (substring_of "AWSTemplateFormatVersion" s); discriminate Hvalid.
    + unfold structural_errors in Hvalid. cbn [contains bind] in Hvalid.
      destruct (existsb (is_str "Resources") items); cbn in Hvalid;
        [discriminate Hvalid|].
      destruct (existsb (is_str "AWSTemplateFormatVersion") items);
        discriminate Hvalid.
  - unfold OnboardingAgent.validate_cloudformation_template, validate_body in Hvalid.
    rewrite Hparse in Hvalid. cbn in Hvalid.
    destruct (handler_invalid e) as [msg Hmsg]. rewrite Hmsg in Hvalid.
    discriminate Hvalid.
Qed.

(** C8, for the validator: whatever is raised inside lines 24-54 ends as a
    result with [valid = False] and one message made from the exception. *)
Lemma validate_catches (template : string) (e : exn) :
  validate_body yaml_safe_load json_loads template = Raise e ->
  valid (validate template) = Some false
  /\ exists prefix,
       In prefix ["Invalid JSON: "; "Invalid YAML: "; "Validation error: "]
       /\ errors (validate template) = [VStr (prefix ++ exn_str e)].
Proof.
  intros H. unfold OnboardingAgent.validate_cloudformation_template.
  rewrite H. cbn [try_except]. unfold validate_handler.
  destruct (is_json_decode_error e).
  - split; [reflexivity|]. exists "Invalid JSON: ". split; [now left|reflexivity].
  - destruct (is_yaml_error e).
    + split; [reflexivity|]. exists "Invalid YAML: ".
      split; [right; now left|reflexivity].
    + split; [reflexivity|]. exists "Validation error: ".
      split; [right; right; now left|reflexivity].
Qed.

(** The validator always returns a dictionary with a boolean [valid]. *)
Lemma validate_total (template : string) :
  exists b, valid (validate template) = Some b.
Proof.
  unfold OnboardingAgent.validate_cloudformation_template, validate_body.
  destruct (parse template) as [v|e]; cbn [bind try_except].
  - destruct (structural_errors v) as [errs|e]; cbn [bind try_except].
    + destruct (contains "AWSTemplateFormatVersion" v) as [b|e];
        cbn [bind try_except].
      * destruct errs; eexists; reflexivity.
      * destruct (handler_invalid e) as [msg ->]. eexists; reflexivity.
    + destruct (handler_invalid e) as [msg ->]. eexists; reflexivity.
  - destruct (handler_invalid e) as [msg ->]. eexists; reflexivity.
Qed.

End ValidatorProperties.

Lemma validate_scalar_loses_error_witness :
  OnboardingAgent.validate_cloudformation_template
    Doubles.yaml_safe_load Doubles.json_loads "" =
    OnboardingAgent.invalid
      ["Validation error: argument of type 'NoneType' is not iterable"]
  /\ OnboardingAgent.valid
       (OnboardingAgent.validate_cloudformation_template
          Doubles.yaml_safe_load Doubles.json_loads "") = Some false
  /\ ~ In (VStr "Template must be a dictionary/object")
          (OnboardingAgent.errors
             (OnboardingAgent.validate_cloudformation_template
                Doubles.yaml_safe_load Doubles.json_loads "")).
Proof.
  apply (validate_scalar_loses_error
           Doubles.yaml_safe_load Doubles.json_loads "" VNone);
    reflexivity.
Defined.

Lemma validate_unsized_resources_loses_error_witness :
  OnboardingAgent.validate_cloudformation_template
    Doubles.yaml_safe_load Doubles.json_loads "Resources: 5" =
    OnboardingAgent.invalid
      ["Validation error: object of type 'int' has no len()"]
  /\ OnboardingAgent.valid
       (OnboardingAgent.validate_cloudformation_template
          Doubles.yaml_safe_load Doubles.json_loads "Resources: 5") = Some false
  /\ ~ In (VStr "'Resources' must be a dictionary")
          (OnboardingAgent.errors
             (OnboardingAgent.validate_cloudformation_template
                Doubles.yaml_safe_load Doubles.json_loads "Resources: 5")).
Proof.
  apply (validate_unsized_resources_loses_error
           Doubles.yaml_safe_load Doubles.json_loads "Resources: 5"
           [("Resources", VInt 5)] (VInt 5));
    reflexivity.
Defined.

Lemma validate_yaml_then_json_witness :
  OnboardingAgent.validate_cloudformation_template
    Doubles.yaml_safe_load Doubles.json_loads "not: [valid, yaml, {"
  = OnboardingAgent.invalid
      ["Invalid JSON: Expecting value: line 1 column 1 (char 0)"]
  /\ OnboardingAgent.valid
       (OnboardingAgent.validate_cloudformation_template
          Doubles.yaml_safe_load Doubles.json_loads "not: [valid, yaml, {")
     = Some false
  /\ OnboardingAgent.errors
       (OnboardingAgent.validate_cloudformation_template
          Doubles.yaml_safe_load Doubles.json_loads "not: [valid, yaml, {")
     = [VStr "Invalid JSON: Expecting value: line 1 column 1 (char 0)"]
  /\ String.prefix "Invalid"
       "Invalid JSON: Expecting value: line 1 column 1 (char 0)" = true.
Proof.
  exact (proj2 (proj2 (proj2
    (validate_yaml_then_json
       Doubles.yaml_safe_load Doubles.json_loads "not: [valid, yaml, {")))
    (Exn YAMLError
       "while parsing a flow node: expected the node content, but found '<stream end>'")
    (Exn JSONDecodeError "Expecting value: line 1 column 1 (char 0)")
    eq_refl eq_refl eq_refl eq_refl).
Defined.

Lemma validate_accepts_only_resources_witness :
  exists entries resources,
    OnboardingAgent.parse_template Doubles.yaml_safe_load Doubles.json_loads
      Doubles.minimal_template = Return (VDict entries)
    /\ lookup "Resources" entries = Some (VDict resources)
    /\ resources <> [].
Proof.
  apply (validate_accepts_only_resources
           Doubles.yaml_safe_load Doubles.json_loads Doubles.minimal_template).
  reflexivity.
Defined.

(* ================================================================== *)
(** ** Properties of the provisioning tools *)
(* ================================================================== *)

Section ProvisioningProperties.

Import ProvisioningAgent.

Variable remote : Type.
Variable cfn_client : client remote.
Variable py_repr : value -> string.

Local Abbreviation deploy :=
  (deploy_cloudformation_stack remote cfn_client py_repr).
Local Abbreviation request_of := (create_stack_request py_repr).
Local Abbreviation status := (get_stack_status remote cfn_client py_repr).
Local Abbreviation events := (get_stack_events remote cfn_client py_repr).

Ltac run_tool_body :=
  unfold deploy_cloudformation_stack, get_stack_status, get_stack_events,
    ProvisioningAgent.validate_cloudformation_template,
    try_exceptM, deploy_body, status_body, events_body, remote_validate_body,
    bindM, call, lift, ret.

(** What a deploy call does, step by step: one [create_stack] round trip,
    then the result dictionary. *)
Lemma deploy_run (stack_name template_body : string)
  (parameters : option (list (string * value))) (w : world remote) :
  deploy stack_name template_body parameters w =
    let request := request_of stack_name template_body parameters in
    let (s, r) := create_stack remote cfn_client request (remote_state remote w) in
    (World remote s (sent remote w ++ [CreateStackCall request])%list,
     match r with
     | Return response =>
         match CreateStack.StackId response with
         | Some stack_id =>
             VDict [("success", VBool true);
                    ("stack_id", VStr stack_id);
                    ("status", VStr "CREATE_IN_PROGRESS");
                    ("message", VStr ("Stack " ++ stack_name
                                      ++ " deployment initiated successfully"))]
         | None => failure "Failed to deploy stack: " (Exn KeyError "'StackId'")
         end
     | Raise e => failure "Failed to deploy stack: " e
     end).
Proof.
  run_tool_body. cbn zeta.
  destruct (create_stack remote cfn_client _ (remote_state remote w)) as [s [response|e]];
    [|reflexivity].
  destruct (CreateStack.StackId response); reflexivity.
Qed.

(** C5.  Every call of [deploy_cloudformation_stack] sends exactly one
    [create_stack] request, and that request carries the three capabilities,
    [OnFailure = ROLLBACK] and the two provenance tags, whatever the
    arguments: they are constants of the request, not parameters. *)
Theorem deploy_request_is_fixed :
  forall (stack_name template_body : string)
         (parameters : option (list (string * value))) (w : world remote),
  exists request,
    sent remote (fst (deploy stack_name template_body parameters w))
      = (sent remote w ++ [CreateStackCall request])%list
    /\ request = request_of stack_name template_body parameters
    /\ CreateStack.Capabilities request
         = ["CAPABILITY_IAM"; "CAPABILITY_NAMED_IAM"; "CAPABILITY_AUTO_EXPAND"]
    /\ CreateStack.OnFailure request = "ROLLBACK"
    /\ CreateStack.Tags request
         = [ {| Key := "ManagedBy"; Value := "MWCAgent" |};
             {| Key := "Agent"; Value := "ProvisioningAgent" |} ].
Proof.
  intros. exists (request_of stack_name template_body parameters).
  rewrite deploy_run. cbn zeta.
  destruct (create_stack remote cfn_client _ (remote_state remote w)) as [s r].
  repeat split.
Qed.

(** C4.  When [create_stack] answers with a stack identifier, the tool
    returns at once - that call is the only one sent - with
    [success = True], status "CREATE_IN_PROGRESS" and the identifier the
    backend assigned (non-empty when the backend's is).  The request lists
    the parameters as key/value pairs in the order of the mapping, and
    leaving [parameters] out sends the empty list. *)
Theorem deploy_submitted :
  forall (stack_name template_body : string)
         (parameters : option (list (string * value))) (w : world remote)
         (s : remote) (response : CreateStack.output) (stack_id : string),
    create_stack remote cfn_client
      (request_of stack_name template_body parameters) (remote_state remote w)
      = (s, Return response) ->
    CreateStack.StackId response = Some stack_id ->
    let (w', r) := deploy stack_name template_body parameters w in
    w' = World remote s
           (sent remote w
            ++ [CreateStackCall (request_of stack_name template_body parameters)])%list
    /\ field "success" r = Some (VBool true)
    /\ field "status" r = Some (VStr "CREATE_IN_PROGRESS")
    /\ field "stack_id" r = Some (VStr stack_id)
    /\ (stack_id <> "" -> field "stack_id" r <> Some (VStr ""))
    /\ CreateStack.Parameters (request_of stack_name template_body parameters)
         = match parameters with
           | Some items =>
               map (fun kv => {| ParameterKey := fst kv;
                                 ParameterValue := str py_repr (snd kv) |}) items
           | None => []
           end
    /\ request_of stack_name template_body None
         = request_of stack_name template_body (Some []).
Proof.
  intros stack_name template_body parameters w s response stack_id Hcall Hid.
  rewrite deploy_run. cbn zeta. rewrite Hcall, Hid.
  repeat split.
  - intros Hne Heq. apply Hne. now injection Heq.
  - destruct parameters as [[|kv items]|]; reflexivity.
Qed.

(** A failure result: [success = False], the exception's text and a
    message. *)
Lemma failure_fields (what : string) (e : exn) :
  field "success" (failure what e) = Some (VBool false)
  /\ field "error" (failure what e) = Some (VStr (exn_str e))
  /\ field "message" (failure what e) = Some (VStr (what ++ exn_str e)).
Proof. repeat split. Qed.

(** Case analysis on the innermost scrutinee of the goal. *)
Ltac step :=
  match goal with
  | |- context [match ?x with _ => _ end] =>
      lazymatch x with
      | context [match _ with _ => _ end] => fail
      | _ => destruct x
      end
  end.

Lemma status_total (stack_name : string) (w : world remote) :
  exists b, field "success" (snd (status stack_name w)) = Some (VBool b).
Proof.
  run_tool_body. repeat (step; cbn [snd remote_state sent]);
    eexists; reflexivity.
Qed.

Lemma events_total (stack_name : string) (limit : option Z) (w : world remote) :
  exists b, field "success" (snd (events stack_name limit w)) = Some (VBool b).
Proof.
  run_tool_body. repeat (step; cbn [snd remote_state sent]);
    eexists; reflexivity.
Qed.

(** C8.  Each of the four operations wraps its whole body in a handler for
    [Exception]: whatever the body raises, the operation returns a
    dictionary with [success] (or [valid]) false and a message made from
    the exception; and on every input it returns a dictionary that carries
    that boolean. *)
Theorem errors_are_returned :
  (forall yaml_safe_load json_loads template,
     (exists b, OnboardingAgent.valid
        (OnboardingAgent.validate_cloudformation_template
           yaml_safe_load json_loads template) = Some b)
     /\ forall e,
        OnboardingAgent.validate_body yaml_safe_load json_loads template = Raise e ->
        OnboardingAgent.valid
          (OnboardingAgent.validate_cloudformation_template
             yaml_safe_load json_loads template) = Some false
        /\ exists prefix,
             In prefix ["Invalid JSON: "; "Invalid YAML: "; "Validation error: "]
             /\ OnboardingAgent.errors
                  (OnboardingAgent.validate_cloudformation_template
                     yaml_safe_load json_loads template)
                = [VStr (prefix ++ exn_str e)])
  /\ (forall stack_name template_body parameters w,
        (exists b, field "success"
           (snd (deploy stack_name template_body parameters w)) = Some (VBool b))
        /\ forall w' e,
           deploy_body remote cfn_client py_repr
             stack_name template_body parameters w = (w', Raise e) ->
           fst (deploy stack_name template_body parameters w) = w'
           /\ field "success" (snd (deploy stack_name template_body parameters w))
                = Some (VBool false)
           /\ field "message" (snd (deploy stack_name template_body parameters w))
                = Some (VStr ("Failed to deploy stack: " ++ exn_str e)))
  /\ (forall stack_name w,
        (exists b, field "success" (snd (status stack_name w)) = Some (VBool b))
        /\ forall w' e,
           status_body remote cfn_client py_repr stack_name w = (w', Raise e) ->
           fst (status stack_name w) = w'
           /\ field "success" (snd (status stack_name w)) = Some (VBool false)
           /\ field "message" (snd (status stack_name w))
                = Some (VStr ("Failed to get stack status: " ++ exn_str e)))
  /\ (forall stack_name limit w,
        (exists b, field "success" (snd (events stack_name limit w)) = Some (VBool b))
        /\ forall w' e,
           events_body remote cfn_client py_repr stack_name
             (match limit with Some n => n | None => 10%Z end) w = (w', Raise e) ->
           fst (events stack_name limit w) = w'
           /\ field "success" (snd (events stack_name limit w)) = Some (VBool false)
           /\ field "message" (snd (events stack_name limit w))
                = Some (VStr ("Failed to get stack events: " ++ exn_str e))).
Proof.
  split; [|split; [|split]].
  - intros yaml_safe_load json_loads template. split.
    + apply validate_total.
    + intros e H. now apply validate_catches.
  - intros stack_name template_body parameters w. split.
    + rewrite deploy_run. cbn zeta.
      destruct (create_stack remote cfn_client _ (remote_state remote w))
        as [s [response|e]]; cbn [snd].
      * destruct (CreateStack.StackId response); eexists; reflexivity.
      * eexists; reflexivity.
    + intros w' e H. unfold deploy_cloudformation_stack, try_exceptM.
      rewrite H. repeat split.
  - intros stack_name w. split; [apply status_total|].
    intros w' e H. unfold get_stack_status, try_exceptM.
    rewrite H. repeat split.
  - intros stack_name limit w. split; [apply events_total|].
    intros w' e H. unfold get_stack_events, try_exceptM.
    rewrite H. repeat split.
Qed.

(** *** Event retrieval *)

Lemma format_complete (e : StackEvent.t) :
  complete e = true -> exists d, format_event py_repr e = Return d.
Proof.
  unfold complete, format_event. intros H.
  destruct (StackEvent.Timestamp e); [|discriminate H].
  destruct (StackEvent.ResourceType e); [|discriminate H].
  destruct (StackEvent.LogicalResourceId e); [|discriminate H].
  destruct (StackEvent.ResourceStatus e); [|discriminate H].
  eexists. reflexivity.
Qed.





(** *** Status retrieval *)






(** *** The entrypoint *)

Variable stream_async : string -> value -> stream.

Local Abbreviation run := (consume remote cfn_client py_repr).
Local Abbreviation uses := (tool_uses remote cfn_client py_repr).

Ltac no_create :=
  unfold create_requests; cbn [sent fst];
  rewrite ?flat_map_app; cbn [flat_map app]; rewrite ?app_nil_r; reflexivity.

Lemma run_tool_requests (use : tool_use) (w : world remote) :
  create_requests (sent remote (fst (run_tool remote cfn_client py_repr use w)))
  = (create_requests (sent remote w) ++ deploy_requests py_repr [use])%list.
Proof.
  destruct use as [template_body | stack_name template_body parameters
                  | stack_name | stack_name limit];
    cbn [run_tool deploy_requests flat_map app]; rewrite ?app_nil_r.
  - run_tool_body. repeat step; no_create.
  - rewrite deploy_run. cbn zeta.
    destruct (create_stack remote cfn_client _ (remote_state remote w)) as [s r].
    cbn [fst sent]. unfold create_requests. rewrite flat_map_app. reflexivity.
  - run_tool_body. repeat (step; cbn [remote_state sent]); no_create.
  - run_tool_body. repeat step; no_create.
Qed.

Lemma consume_requests (s : stream) :
  forall w : world remote,
    create_requests (sent remote (fst (run s w)))
    = (create_requests (sent remote w) ++ deploy_requests py_repr (uses s w))%list.
Proof.
  induction s as [event rest IH | use resume IH |]; intros w;
    cbn [consume tool_uses].
  - destruct (text_of event) as [[data|]|e].
    + rewrite <- IH. now destruct (run rest w).
    + apply IH.
    + cbn. now rewrite app_nil_r.
  - pose proof (run_tool_requests use w) as Htool.
    destruct (run_tool remote cfn_client py_repr use w) as [w' r].
    rewrite IH. cbn [fst] in Htool. rewrite Htool.
    cbn [deploy_requests flat_map]. rewrite app_nil_r, <- app_assoc.
    reflexivity.
  - cbn. now rewrite app_nil_r.
Qed.

(** C9, as the code has it.  [deploy_cloudformation_stack] validates
    nothing: whatever the template, the call sends its [create_stack]
    request.  [invoke] leaves the order of the tool calls to the agent, so
    the requests submitted during a run are exactly those of the agent's
    deploy calls, one for one and in their order - none when the agent makes
    no deploy call. *)
Theorem submit_follows_the_agent :
  (forall stack_name template_body parameters (w : world remote),
     sent remote (fst (deploy stack_name template_body parameters w))
     = (sent remote w
        ++ [CreateStackCall (request_of stack_name template_body parameters)])%list)
  /\ (forall (payload : list (string * value)) (w : world remote),
        create_requests
          (sent remote (fst (invoke remote cfn_client py_repr stream_async payload w)))
        = (create_requests (sent remote w)
           ++ deploy_requests py_repr
                (uses (stream_async system_prompt (payload_get payload "prompt")) w))%list).
Proof.
  split.
  - intros. rewrite deploy_run. cbn zeta.
    now destruct (create_stack remote cfn_client _ (remote_state remote w)).
  - intros payload w. unfold invoke. apply consume_requests.
Qed.

End ProvisioningProperties.

Lemma deploy_submitted_witness :
  let (w', r) :=
    ProvisioningAgent.deploy_cloudformation_stack (list string)
      Doubles.cfn_client Doubles.py_repr
      "demo-stack" Doubles.minimal_template
      (Some [("BucketName", VStr "demo"); ("Versions", VInt 3)]) Doubles.fresh in
  w' = ProvisioningAgent.World (list string) ["demo-stack"]
         [ProvisioningAgent.CreateStackCall
            (ProvisioningAgent.create_stack_request Doubles.py_repr
               "demo-stack" Doubles.minimal_template
               (Some [("BucketName", VStr "demo"); ("Versions", VInt 3)]))]
  /\ field "success" r = Some (VBool true)
  /\ field "status" r = Some (VStr "CREATE_IN_PROGRESS")
  /\ field "stack_id" r
       = Some (VStr "arn:aws:cloudformation:us-east-1:123456789012:stack/demo-stack")
  /\ ("arn:aws:cloudformation:us-east-1:123456789012:stack/demo-stack" <> ""
      -> field "stack_id" r <> Some (VStr ""))
  /\ ProvisioningAgent.CreateStack.Parameters
       (ProvisioningAgent.create_stack_request Doubles.py_repr
          "demo-stack" Doubles.minimal_template
          (Some [("BucketName", VStr "demo"); ("Versions", VInt 3)]))
     = [ {| ProvisioningAgent.ParameterKey := "BucketName";
            ProvisioningAgent.ParameterValue := "demo" |};
         {| ProvisioningAgent.ParameterKey := "Versions";
            ProvisioningAgent.ParameterValue := "3" |} ]
  /\ ProvisioningAgent.create_stack_request Doubles.py_repr
       "demo-stack" Doubles.minimal_template None
     = ProvisioningAgent.create_stack_request Doubles.py_repr
         "demo-stack" Doubles.minimal_template (Some []).
Proof.
  exact (deploy_submitted (list string) Doubles.cfn_client Doubles.py_repr
           "demo-stack" Doubles.minimal_template
           (Some [("BucketName", VStr "demo"); ("Versions", VInt 3)])
           Doubles.fresh ["demo-stack"]
           {| ProvisioningAgent.CreateStack.StackId :=
                Some "arn:aws:cloudformation:us-east-1:123456789012:stack/demo-stack" |}
           "arn:aws:cloudformation:us-east-1:123456789012:stack/demo-stack"
           eq_refl eq_refl).
Defined.

Lemma errors_are_returned_witness :
  field "success"
    (snd (ProvisioningAgent.get_stack_status (list string)
            Doubles.cfn_client Doubles.py_repr "nonexistent-stack-xyz"
            Doubles.fresh))
  = Some (VBool false)
  /\ field "message"
       (snd (ProvisioningAgent.get_stack_status (list string)
               Doubles.cfn_client Doubles.py_repr "nonexistent-stack-xyz"
               Doubles.fresh))
     = Some (VStr ("Failed to get stack status: "
                   ++ "An error occurred (ValidationError): Stack with id nonexistent-stack-xyz does not exist")).
Proof.
  destruct (errors_are_returned (list string) Doubles.cfn_client Doubles.py_repr)
    as (_ & _ & Hstatus & _).
  destruct (Hstatus "nonexistent-stack-xyz" Doubles.fresh) as [_ Hraise].
  exact (proj2 (Hraise
    (ProvisioningAgent.World (list string) []
       [ProvisioningAgent.DescribeStacksCall "nonexistent-stack-xyz"])
    (Exn (OtherException "ClientError")
       "An error occurred (ValidationError): Stack with id nonexistent-stack-xyz does not exist")
    eq_refl)).
Defined.




(** C9, as the specification words it, fails: the template has no
    'Resources' and the local validator rejects it, yet an agent that calls
    the deploy tool has the request submitted. *)
Lemma deploy_without_validation_counterexample :
  OnboardingAgent.valid
    (OnboardingAgent.validate_cloudformation_template
       Doubles.yaml_safe_load Doubles.json_loads "Description: no resources")
  = Some false
  /\ ProvisioningAgent.sent (list string)
       (fst (ProvisioningAgent.invoke (list string)
               Doubles.cfn_client Doubles.py_repr Doubles.hasty_agent
               [("prompt", VStr "Deploy this template: Description: no resources")]
               Doubles.fresh))
     = [ProvisioningAgent.CreateStackCall
          (ProvisioningAgent.create_stack_request Doubles.py_repr
             "demo-stack" "Description: no resources" None)].
Proof. split; reflexivity. Qed.

(* ================================================================== *)
(** ** Further properties of the local validator *)
(* ================================================================== *)

Section ValidatorFurther.

Import OnboardingAgent.

Variable yaml_safe_load : string -> result value.
Variable json_loads : string -> result value.

Local Abbreviation parse := (parse_template yaml_safe_load json_loads).
Local Abbreviation validate :=
  (OnboardingAgent.validate_cloudformation_template yaml_safe_load json_loads).

(** X1.  The validator accepts every text that loads to a mapping with a
    non-empty 'Resources' mapping, whatever else the mapping holds: no other
    key is looked at, and a missing 'AWSTemplateFormatVersion' is no
    error. *)
Theorem validate_accepts_resources_mapping :
  forall (template : string) (entries resources : list (string * value)),
    parse template = Return (VDict entries) ->
    lookup "Resources" entries = Some (VDict resources) ->
    resources <> [] ->
    validate template =
      VDict [("valid", VBool true); ("message", VStr "Template structure is valid")].
Proof.
  intros template entries resources Hparse Hres Hne.
  rewrite (validate_dict _ _ _ _ Hparse), Hres. cbn [len isinstance_dict].
  destruct resources as [|kv rest]; [now contradiction Hne|reflexivity].
Qed.

(** X2.  A result is of one of two shapes, never a mix: [valid] true with a
    message and no [errors] key, or [valid] false with one or two errors
    and no [message] key. *)
Theorem validate_result_shape :
  forall (template : string),
    (validate template =
       VDict [("valid", VBool true); ("message", VStr "Template structure is valid")])
    \/ (exists first rest,
          validate template = invalid (first :: rest)
          /\ (List.length rest <= 1)%nat
          /\ field "message" (validate template) = None).
Proof.
  intros template.
  destruct (parse template) as [v|e] eqn:Hparse.
  - destruct v as [| b | z | f | s | t | items | entries].
    8: { rewrite (validate_dict _ _ _ _ Hparse).
         destruct (lookup "Resources" entries) as [r|].
         - destruct (len r) as [n|e].
           + destruct (isinstance_dict r), (Nat.eqb n 0);
               [right|left; reflexivity|right|right];
               eexists; eexists; (split; [reflexivity|split; [cbn; lia|reflexivity]]).
           + right. destruct (handler_invalid e) as [msg ->].
             exists msg, []. repeat split. cbn; lia.
         - right. eexists; eexists.
           split; [reflexivity|split; [cbn; lia|reflexivity]]. }
    all: rewrite (validate_parsed _ _ _ _ Hparse); right.
    all: try (cbn; eexists; eexists;
              split; [reflexivity|split; [cbn; lia|reflexivity]]).
    + unfold structural_errors. cbn [contains bind].
      destruct (substring_of "Resources" s); cbn.
      * eexists; eexists. split; [reflexivity|split; [cbn; lia|reflexivity]].
      * destruct (substring_of "AWSTemplateFormatVersion" s); cbn;
          eexists; eexists; (split; [reflexivity|split; [cbn; lia|reflexivity]]).
    + unfold structural_errors. cbn [contains bind].
      destruct (existsb (is_str "Resources") items); cbn.
      * eexists; eexists. split; [reflexivity|split; [cbn; lia|reflexivity]].
      * destruct (existsb (is_str "AWSTemplateFormatVersion") items); cbn;
          eexists; eexists; (split; [reflexivity|split; [cbn; lia|reflexivity]]).
  - right. unfold OnboardingAgent.validate_cloudformation_template, validate_body.
    rewrite Hparse. cbn [bind try_except].
    destruct (handler_invalid e) as [msg ->].
    exists msg, []. repeat split. cbn; lia.
Qed.

(** X3.  A YAML syntax error is never shown to the caller: once the YAML loader
    raises [YAMLError] the result is that of the JSON attempt alone, the
    same whatever the YAML error said; and as long as [json.loads] raises no
    [YAMLError] no result carries an "Invalid YAML: ..." error. *)
Theorem yaml_error_is_never_reported :
  (forall (template : string) (e : exn),
     yaml_safe_load template = Raise e -> is_yaml_error e = true ->
     validate template =
       OnboardingAgent.validate_cloudformation_template
         json_loads json_loads template)
  /\ ((forall template e, json_loads template = Raise e -> is_yaml_error e = false) ->
      forall (template : string) (msg : string),
        In (VStr msg) (errors (validate template)) ->
        String.prefix "Invalid YAML: " msg = false).
Proof.
  split.
  - intros template e Hyaml Hcls.
    unfold OnboardingAgent.validate_cloudformation_template, validate_body,
      parse_template.
    rewrite Hyaml, Hcls.
    destruct (json_loads template) as [v|e'] eqn:Hjson; [reflexivity|].
    now destruct (is_yaml_error e').
  - intros Hjson template msg Hin.
    assert (Hhandler : forall e,
              (yaml_safe_load template = Raise e /\ is_yaml_error e = false)
              \/ json_loads template = Raise e
              \/ exn_cls e = TypeError ->
              In (VStr msg) (errors (validate_handler e)) ->
              String.prefix "Invalid YAML: " msg = false).
    { intros e Hfrom Hmsg. unfold validate_handler in Hmsg.
      destruct (is_json_decode_error e) eqn:Hj.
      - destruct Hmsg as [Hmsg|[]]. now injection Hmsg as <-.
      - destruct (is_yaml_error e) eqn:Hy.
        + exfalso. destruct Hfrom as [[_ H]|[H|H]].
          * congruence.
          * rewrite (Hjson _ _ H) in Hy. discriminate Hy.
          * unfold is_yaml_error in Hy. rewrite H in Hy. discriminate Hy.
        + destruct Hmsg as [Hmsg|[]]. now injection Hmsg as <-. }
    assert (Hparsed : forall v, parse template = Return v ->
              String.prefix "Invalid YAML: " msg = false).
    { intros v Hparse.
      destruct v as [| b | z | f | s | t | items | entries].
      8: { rewrite (validate_dict _ _ _ _ Hparse) in Hin.
           destruct (lookup "Resources" entries) as [r|].
           - destruct (len r) as [n|e] eqn:Hlen.
             + destruct (isinstance_dict r), (Nat.eqb n 0); cbn in Hin;
                 repeat (destruct Hin as [Hin|Hin];
                         [now injection Hin as <-|]); now destruct Hin.
             + apply (Hhandler e); [|exact Hin]. right; right.
               destruct r; cbn in Hlen; try discriminate Hlen;
                 now injection Hlen as <-.
           - cbn in Hin. destruct Hin as [Hin|[]]. now injection Hin as <-. }
      all: rewrite (validate_parsed _ _ _ _ Hparse) in Hin.
      all: try (cbn in Hin; destruct Hin as [Hin|[]]; now injection Hin as <-).
      - unfold structural_errors in Hin. cbn [contains bind] in Hin.
        destruct (substring_of "Resources" s); cbn in Hin.
        + destruct Hin as [Hin|[]]. now injection Hin as <-.
        + destruct (substring_of "AWSTemplateFormatVersion" s); cbn in Hin;
            repeat (destruct Hin as [Hin|Hin]; [now injection Hin as <-|]);
            now destruct Hin.
      - unfold structural_errors in Hin. cbn [contains bind] in Hin.
        destruct (existsb (is_str "Resources") items); cbn in Hin.
        + destruct Hin as [Hin|[]]. now injection Hin as <-.
        + destruct (existsb (is_str "AWSTemplateFormatVersion") items);
            cbn in Hin;
            repeat (destruct Hin as [Hin|Hin]; [now injection Hin as <-|]);
            now destruct Hin. }
    destruct (parse template) as [v|e] eqn:Hparse; [now apply (Hparsed v)|].
    unfold OnboardingAgent.validate_cloudformation_template, validate_body in Hin.
    rewrite Hparse in Hin. cbn [bind try_except] in Hin.
    apply (Hhandler e); [|exact Hin].
    unfold parse_template in Hparse.
    destruct (yaml_safe_load template) as [v|e1] eqn:Hyaml; [discriminate Hparse|].
    destruct (is_yaml_error e1) eqn:Hy.
    + right; now left.
    + injection Hparse as <-. left. now split.
Qed.

End ValidatorFurther.

Lemma validate_accepts_resources_mapping_witness :
  OnboardingAgent.validate_cloudformation_template
    Doubles.yaml_safe_load Doubles.json_loads Doubles.minimal_template
  = VDict [("valid", VBool true); ("message", VStr "Template structure is valid")].
Proof.
  apply (validate_accepts_resources_mapping
           Doubles.yaml_safe_load Doubles.json_loads Doubles.minimal_template
           [("Resources", VDict [("Bucket", VDict [("Type", VStr "AWS::S3::Bucket")])])]
           [("Bucket", VDict [("Type", VStr "AWS::S3::Bucket")])]);
    [reflexivity | reflexivity | discriminate].
Defined.

Lemma yaml_error_is_never_reported_witness :
  OnboardingAgent.validate_cloudformation_template
    Doubles.yaml_safe_load Doubles.json_loads "not: [valid, yaml, {"
  = OnboardingAgent.validate_cloudformation_template
      Doubles.json_loads Doubles.json_loads "not: [valid, yaml, {"
  /\ String.prefix "Invalid YAML: "
       "Invalid JSON: Expecting value: line 1 column 1 (char 0)" = false.
Proof.
  destruct (yaml_error_is_never_reported
              Doubles.yaml_safe_load Doubles.json_loads) as [Hsame Hdead].
  split.
  - exact (Hsame "not: [valid, yaml, {"
             (Exn YAMLError
                "while parsing a flow node: expected the node content, but found '<stream end>'")
             eq_refl eq_refl).
  - apply (Hdead
             (fun template e H =>
                match H in (_ = r) return
                      (match r with Raise e' => is_yaml_error e' = false | _ => True end)
                with eq_refl => eq_refl end)
             "not: [valid, yaml, {"
             "Invalid JSON: Expecting value: line 1 column 1 (char 0)").
    left. reflexivity.
Defined.

(* ================================================================== *)
(** ** Further properties of the provisioning tools *)
(* ================================================================== *)

Section ProvisioningFurther.

Import ProvisioningAgent.

Variable remote : Type.
Variable cfn_client : client remote.
Variable py_repr : value -> string.

Local Abbreviation deploy :=
  (deploy_cloudformation_stack remote cfn_client py_repr).
Local Abbreviation status := (get_stack_status remote cfn_client py_repr).
Local Abbreviation events := (get_stack_events remote cfn_client py_repr).
Local Abbreviation remote_validate :=
  (ProvisioningAgent.validate_cloudformation_template remote cfn_client).

Ltac unfold_tools :=
  unfold deploy_cloudformation_stack, get_stack_status, get_stack_events,
    ProvisioningAgent.validate_cloudformation_template,
    try_exceptM, deploy_body, status_body, events_body, remote_validate_body,
    bindM, call, lift, ret.

Ltac inner_case :=
  match goal with
  | |- context [match ?x with _ => _ end] =>
      lazymatch x with
      | context [match _ with _ => _ end] => fail
      | _ => destruct x
      end
  end.

(** *** Status retrieval *)

(** X5.  When the first stack cannot be had - the backend raises (no stack of
    that name), or answers without 'Stacks' or with an empty list - the tool
    returns the failure made of that exception, with the backend's text
    unchanged, and does not ask for the resources. *)
Theorem status_stops_at_first_failure :
  forall (stack_name : string) (w : world remote) (s1 : remote)
         (r : result DescribeStacks.output) (e : exn),
    describe_stacks remote cfn_client stack_name (remote_state remote w) = (s1, r) ->
    (response <- r ;;
     stacks <- subscript "Stacks" (DescribeStacks.Stacks response) ;;
     first_item stacks) = Raise e ->
    status stack_name w =
      (World remote s1 (sent remote w ++ [DescribeStacksCall stack_name])%list,
       VDict [("success", VBool false);
              ("error", VStr (exn_str e));
              ("message", VStr ("Failed to get stack status: " ++ exn_str e))]).
Proof.
  intros stack_name w s1 r e Hcall Hfirst. unfold_tools. rewrite Hcall.
  destruct r as [response|e']; cbn [bind] in Hfirst.
  - destruct (subscript "Stacks" (DescribeStacks.Stacks response)) as [stacks|e'];
      cbn [bind] in Hfirst.
    + destruct (first_item stacks); [discriminate Hfirst|].
      now injection Hfirst as <-.
    + now injection Hfirst as <-.
  - now injection Hfirst as <-.
Qed.

(** X6.  The tools that read send nothing but their own describe or validate
    calls, for the name they were given: the status tool one or two calls,
    the events tool and the remote validator exactly one each, whatever the
    outcome. *)
Theorem read_only_tools_calls :
  (forall (stack_name : string) (w : world remote),
     sent remote (fst (status stack_name w))
       = (sent remote w ++ [DescribeStacksCall stack_name])%list
     \/ sent remote (fst (status stack_name w))
          = (sent remote w ++ [DescribeStacksCall stack_name;
                               DescribeStackResourcesCall stack_name])%list)
  /\ (forall (stack_name : string) (limit : option Z) (w : world remote),
        sent remote (fst (events stack_name limit w))
          = (sent remote w ++ [DescribeStackEventsCall stack_name])%list)
  /\ (forall (template_body : string) (w : world remote),
        sent remote (fst (remote_validate template_body w))
          = (sent remote w ++ [ValidateTemplateCall template_body])%list).
Proof.
  split; [|split].
  - intros stack_name w. unfold_tools.
    repeat (inner_case; cbn [remote_state sent fst]);
      rewrite <- ?app_assoc; cbn [app]; auto.
  - intros stack_name limit w. unfold_tools.
    repeat (inner_case; cbn [remote_state sent fst]); reflexivity.
  - intros template_body w. unfold_tools.
    repeat (inner_case; cbn [remote_state sent fst]); reflexivity.
Qed.

Lemma status_of_state (stack_name : string) (s : remote) (l1 l2 : list api_call) :
  snd (status stack_name (World remote s l1))
  = snd (status stack_name (World remote s l2))
  /\ remote_state remote (fst (status stack_name (World remote s l1)))
     = remote_state remote (fst (status stack_name (World remote s l2))).
Proof.
  unfold_tools. cbn [remote_state sent].
  repeat (inner_case; cbn [remote_state sent fst snd]); split; reflexivity.
Qed.

(** X7.  Polling is repeatable: when the two describe calls leave the remote
    state as it is, a second call of the status tool returns the same
    result as the first. *)
Theorem status_repeatable :
  forall (stack_name : string) (w : world remote)
         (r1 : result DescribeStacks.output)
         (r2 : result DescribeStackResources.output),
    describe_stacks remote cfn_client stack_name (remote_state remote w)
      = (remote_state remote w, r1) ->
    describe_stack_resources remote cfn_client stack_name (remote_state remote w)
      = (remote_state remote w, r2) ->
    remote_state remote (fst (status stack_name w)) = remote_state remote w
    /\ snd (status stack_name (fst (status stack_name w)))
       = snd (status stack_name w).
Proof.
  intros stack_name w r1 r2 H1 H2.
  assert (Hstate : remote_state remote (fst (status stack_name w))
                   = remote_state remote w).
  { unfold_tools. rewrite H1. cbn [remote_state sent].
    destruct r1 as [response|e]; [|reflexivity].
    destruct (subscript "Stacks" (DescribeStacks.Stacks response)) as [stacks|e];
      [|reflexivity].
    destruct (first_item stacks) as [stack|e]; [|reflexivity].
    rewrite H2. cbn [remote_state sent].
    repeat (inner_case; cbn [remote_state sent fst]); reflexivity. }
  split; [exact Hstate|].
  destruct (fst (status stack_name w)) as [s' l'] eqn:Hw'.
  cbn [remote_state] in Hstate. subst s'.
  destruct w as [s l]. cbn [remote_state].
  apply status_of_state.
Qed.

(** *** The outputs of a snapshot *)

Lemma lookup_dict_set (key k : string) (v : value)
  (entries : list (string * value)) :
  lookup k (dict_set key v entries)
  = if String.eqb key k then Some v else lookup k entries.
Proof.
  induction entries as [|[k0 x0] rest IH]; cbn [dict_set lookup].
  - reflexivity.
  - destruct (String.eqb_spec k0 key) as [->|Hne]; cbn [lookup].
    + destruct (String.eqb key k); reflexivity.
    + rewrite IH. destruct (String.eqb_spec k0 k) as [->|Hne'].
      * destruct (String.eqb_spec key k) as [->|_]; [now contradiction Hne|reflexivity].
      * reflexivity.
Qed.

Lemma dict_set_keys (key : string) (v : value) (entries : list (string * value)) :
  (In key (map fst entries)
   /\ map fst (dict_set key v entries) = map fst entries)
  \/ (~ In key (map fst entries)
      /\ map fst (dict_set key v entries) = (map fst entries ++ [key])%list).
Proof.
  induction entries as [|[k0 x0] rest IH]; cbn [dict_set map fst].
  - right. split; [intros []|reflexivity].
  - destruct (String.eqb_spec k0 key) as [->|Hne]; cbn [map fst].
    + left. split; [now left|reflexivity].
    + destruct IH as [[Hin Heq]|[Hnin Heq]].
      * left. split; [now right|now rewrite Heq].
      * right. split; [|now rewrite Heq].
        intros [H|H]; [now apply Hne|now apply Hnin].
Qed.

Lemma dict_set_nodup (key : string) (v : value) (entries : list (string * value)) :
  NoDup (map fst entries) -> NoDup (map fst (dict_set key v entries)).
Proof.
  intros H. destruct (dict_set_keys key v entries) as [[_ ->]|[Hnin ->]].
  - exact H.
  - apply NoDup_app; [exact H|repeat constructor; intros []|].
    intros a Ha [<-|[]]. now apply Hnin.
Qed.

Lemma outputs_of_lookup (outs : list Output.t) :
  forall (acc outputs : list (string * value)),
    outputs_of outs acc = Return outputs ->
    NoDup (map fst acc) ->
    NoDup (map fst outputs)
    /\ forall k,
         lookup k outputs =
           match last_with_key k outs with
           | Some o => Some (VStr (get (Output.OutputValue o) "N/A"))
           | None => lookup k acc
           end.
Proof.
  induction outs as [|o outs IH]; intros acc outputs H Hnodup.
  - injection H as <-. now split.
  - cbn [outputs_of] in H. unfold subscript in H.
    destruct (Output.OutputKey o) as [key|] eqn:Hkey; [|discriminate H].
    cbn [bind] in H.
    destruct (IH _ _ H (dict_set_nodup _ _ _ Hnodup)) as [Hnd Hlook].
    split; [exact Hnd|]. intros k. rewrite Hlook. cbn [last_with_key].
    destruct (last_with_key k outs); [reflexivity|].
    rewrite Hkey, lookup_dict_set. now destruct (String.eqb key k).
Qed.

(** X8.  The outputs mapping of a snapshot has each key once, and under a key
    the value of the last output the backend listed with that key - or
    "N/A" when that output has no value. *)
Theorem outputs_last_value_wins :
  forall (outs : list Output.t) (outputs : list (string * value)),
    outputs_of outs [] = Return outputs ->
    NoDup (map fst outputs)
    /\ forall k,
         lookup k outputs =
           option_map (fun o => VStr (match Output.OutputValue o with
                                      | Some x => x
                                      | None => "N/A"
                                      end))
                      (last_with_key k outs).
Proof.
  intros outs outputs H.
  destruct (outputs_of_lookup outs [] outputs H (NoDup_nil _)) as [Hnd Hlook].
  split; [exact Hnd|]. intros k. rewrite Hlook.
  now destruct (last_with_key k outs).
Qed.

(** *** Event retrieval *)

Lemma mapM_format_kept (l : list StackEvent.t) :
  forallb complete l = true ->
  exists formatted,
    mapM (format_event py_repr) l = Return formatted
    /\ Forall2 (fun e d => format_event py_repr e = Return d) l formatted.
Proof.
  induction l as [|e l IH]; intros H.
  - exists []. split; [reflexivity|constructor].
  - cbn [forallb] in H. apply andb_prop in H as [He Hl].
    destruct (format_complete py_repr e He) as [d Hd].
    destruct (IH Hl) as (ds & Hds & Hall).
    exists (d :: ds). split.
    + cbn [mapM]. now rewrite Hd, Hds.
    + now constructor.
Qed.

(** X9.  The list is cut before it is formatted: only the entries kept need the
    members the tool reads, and an entry past the limit that lacks one does
    no harm.  The result then has as many events as were kept, which for a
    positive limit is the smaller of the limit and the number of events. *)
Theorem events_only_kept_are_formatted :
  forall (stack_name : string) (limit : option Z) (w : world remote) (s : remote)
         (response : DescribeStackEvents.output)
         (stack_events : list StackEvent.t),
    describe_stack_events remote cfn_client stack_name (remote_state remote w)
      = (s, Return response) ->
    DescribeStackEvents.StackEvents response = Some stack_events ->
    forallb complete
      (slice_to stack_events (match limit with Some n => n | None => 10%Z end))
      = true ->
    returns_events py_repr (snd (events stack_name limit w))
      (slice_to stack_events (match limit with Some n => n | None => 10%Z end))
    /\ List.length (event_list (snd (events stack_name limit w)))
       = List.length
           (slice_to stack_events (match limit with Some n => n | None => 10%Z end))
    /\ (forall n, limit = Some n -> (0 < n)%Z ->
          List.length (event_list (snd (events stack_name limit w)))
          = Nat.min (Z.to_nat n) (List.length stack_events)).
Proof.
  intros stack_name limit w s response stack_events Hcall Hevents Hkept.
  set (kept := slice_to stack_events _) in *.
  assert (Hrun : exists formatted,
            Forall2 (fun e d => format_event py_repr e = Return d) kept formatted
            /\ snd (events stack_name limit w)
               = VDict [("success", VBool true); ("events", VList formatted)]).
  { unfold_tools. rewrite Hcall, Hevents. cbn [subscript]. fold kept.
    destruct (mapM_format_kept kept Hkept) as (formatted & Hmap & Hall).
    rewrite Hmap. exists formatted. split; [exact Hall|reflexivity]. }
  destruct Hrun as (formatted & Hall & Hresult).
  assert (Hlen : List.length (event_list (snd (events stack_name limit w)))
                 = List.length kept).
  { rewrite Hresult. cbn. symmetry. exact (Forall2_length Hall). }
  split; [exists formatted; now split|]. split; [exact Hlen|].
  intros n -> Hn. rewrite Hlen. unfold kept, slice_to.
  destruct (Z.leb_spec 0 n); [apply length_firstn|lia].
Qed.

Lemma mapM_format_fails (pre post : list StackEvent.t) (e : StackEvent.t)
  (member : string) :
  forallb complete pre = true ->
  first_missing e = Some member ->
  mapM (format_event py_repr) (pre ++ e :: post)
  = Raise (Exn KeyError ("'" ++ member ++ "'")).
Proof.
  intros Hpre Hmissing. induction pre as [|p pre IH]; cbn [app mapM].
  - unfold format_event, subscript. unfold first_missing in Hmissing.
    destruct (StackEvent.Timestamp e);
      [|injection Hmissing as <-; reflexivity].
    destruct (StackEvent.ResourceType e);
      [|injection Hmissing as <-; reflexivity].
    destruct (StackEvent.LogicalResourceId e);
      [|injection Hmissing as <-; reflexivity].
    destruct (StackEvent.ResourceStatus e);
      [discriminate Hmissing|injection Hmissing as <-; reflexivity].
  - cbn [forallb] in Hpre. apply andb_prop in Hpre as [Hp Hpre].
    destruct (format_complete py_repr p Hp) as [d ->]. cbn [bind].
    now rewrite (IH Hpre).
Qed.

(** X10.  One kept entry that lacks a member the tool subscripts makes the whole
    call fail: no event is returned, and the error names the first member
    missing from the first such entry. *)
Theorem events_incomplete_entry_fails :
  forall (stack_name : string) (limit : option Z) (w : world remote) (s : remote)
         (response : DescribeStackEvents.output)
         (stack_events pre post : list StackEvent.t) (e : StackEvent.t)
         (member : string),
    describe_stack_events remote cfn_client stack_name (remote_state remote w)
      = (s, Return response) ->
    DescribeStackEvents.StackEvents response = Some stack_events ->
    slice_to stack_events (match limit with Some n => n | None => 10%Z end)
      = (pre ++ e :: post)%list ->
    forallb complete pre = true ->
    first_missing e = Some member ->
    snd (events stack_name limit w)
      = VDict [("success", VBool false);
               ("error", VStr ("'" ++ member ++ "'"));
               ("message", VStr ("Failed to get stack events: "
                                 ++ "'" ++ member ++ "'"))]
    /\ event_list (snd (events stack_name limit w)) = [].
Proof.
  intros stack_name limit w s response stack_events pre post e member
    Hcall Hevents Hslice Hpre Hmissing.
  assert (Hresult : snd (events stack_name limit w)
            = failure "Failed to get stack events: "
                (Exn KeyError ("'" ++ member ++ "'"))).
  { unfold_tools. rewrite Hcall, Hevents. cbn [subscript].
    rewrite Hslice, (mapM_format_fails pre post e member Hpre Hmissing).
    reflexivity. }
  rewrite Hresult. split; reflexivity.
Qed.

(** *** Remote validation *)

Lemma mapM_parameter_keys (parameters : list TemplateParameter.t)
  (keys : list string) :
  map TemplateParameter.ParameterKey parameters = map Some keys ->
  mapM (fun p => subscript "ParameterKey" (TemplateParameter.ParameterKey p))
       parameters = Return keys.
Proof.
  revert keys. induction parameters as [|p parameters IH]; intros [|k keys] H;
    try discriminate H; [reflexivity|].
  cbn [map] in H. injection H as Hk Hrest.
  cbn [mapM]. rewrite Hk. cbn [subscript bind]. now rewrite (IH keys Hrest).
Qed.

(** X12.  When the backend accepts the template, the remote validator returns
    [valid = True] with the names of the template's parameters in the
    backend's order, and fills what the backend left out: "No description"
    for the description, empty lists for parameters and capabilities. *)
Theorem remote_validate_answer :
  forall (template_body : string) (w : world remote) (s : remote)
         (response : ValidateTemplate.output) (keys : list string),
    validate_template remote cfn_client template_body (remote_state remote w)
      = (s, Return response) ->
    map TemplateParameter.ParameterKey
        (match ValidateTemplate.Parameters response with
         | Some parameters => parameters
         | None => []
         end) = map Some keys ->
    remote_validate template_body w =
      (World remote s (sent remote w ++ [ValidateTemplateCall template_body])%list,
       VDict [("valid", VBool true);
              ("description",
                VStr (match ValidateTemplate.Description response with
                      | Some description => description
                      | None => "No description"
                      end));
              ("parameters", VList (map VStr keys));
              ("capabilities",
                VList (map VStr (match ValidateTemplate.Capabilities response with
                                 | Some capabilities => capabilities
                                 | None => []
                                 end)));
              ("message", VStr "Template is valid")]).
Proof.
  intros template_body w s response keys Hcall Hkeys. unfold_tools.
  rewrite Hcall. unfold get.
  rewrite (mapM_parameter_keys _ keys Hkeys). reflexivity.
Qed.

(** *** Deployment *)

(** X13.  A failure result does not mean that nothing was sent: the request is
    always submitted first.  When the backend raises (a name already taken,
    say) or answers without 'StackId', the tool returns the failure made of
    that exception, with the backend's text unchanged, and the remote state
    is whatever the submission left. *)
Theorem deploy_failure_after_submission :
  forall (stack_name template_body : string)
         (parameters : option (list (string * value))) (w : world remote)
         (s : remote) (r : result CreateStack.output) (e : exn),
    create_stack remote cfn_client
      (create_stack_request py_repr stack_name template_body parameters)
      (remote_state remote w) = (s, r) ->
    (response <- r ;; subscript "StackId" (CreateStack.StackId response)) = Raise e ->
    deploy stack_name template_body parameters w =
      (World remote s
         (sent remote w
          ++ [CreateStackCall
                (create_stack_request py_repr stack_name template_body parameters)])%list,
       VDict [("success", VBool false);
              ("error", VStr (exn_str e));
              ("message", VStr ("Failed to deploy stack: " ++ exn_str e))]).
Proof.
  intros stack_name template_body parameters w s r e Hcall Hraise.
  rewrite deploy_run. cbn zeta. rewrite Hcall.
  destruct r as [response|e']; cbn [bind] in Hraise.
  - unfold subscript in Hraise.
    destruct (CreateStack.StackId response); [discriminate Hraise|].
    now injection Hraise as <-.
  - now injection Hraise as <-.
Qed.

(** *** The entrypoint *)

Variable stream_async : string -> value -> stream.

Local Abbreviation entry := (invoke remote cfn_client py_repr stream_async).

Lemma text_of_dict (entries : list (string * value)) :
  text_of (VDict entries)
  = Return (match lookup "data" entries with
            | Some (VStr data) => Some data
            | _ => None
            end).
Proof.
  unfold text_of. cbn [contains getitem bind].
  destruct (lookup "data" entries) as [[]|]; reflexivity.
Qed.

Lemma consume_yields (events : list value) (w : world remote) :
  Forall (fun event => isinstance_dict event = true) events ->
  consume remote cfn_client py_repr (yields events) w
  = (w, Response (text_parts events) None).
Proof.
  induction 1 as [|event events Hdict _ IH]; [reflexivity|].
  unfold yields in *. cbn [fold_right consume].
  destruct event; try discriminate Hdict.
  rewrite text_of_dict, IH. cbn [text_parts flat_map field].
  destruct (lookup "data" entries) as [[]|]; reflexivity.
Qed.

(** X14.  When the agent only talks - it yields dict events and uses no tool -
    the caller receives the str ["data"] of the events that have one, in
    their order, and nothing else: events without ["data"], or with
    ["data"] that is not a str, are passed over; nothing is sent to the
    backend and nothing is raised. *)
Theorem invoke_yields_text_parts :
  forall (payload : list (string * value)) (w : world remote)
         (events : list value),
    stream_async system_prompt (payload_get payload "prompt") = yields events ->
    Forall (fun event => isinstance_dict event = true) events ->
    entry payload w = (w, Response (text_parts events) None).
Proof.
  intros payload w events Hstream Hdict. unfold invoke. rewrite Hstream.
  now apply consume_yields.
Qed.



Lemma consume_without_tools (s : stream) :
  forall w : world remote,
    tool_uses remote cfn_client py_repr s w = [] ->
    fst (consume remote cfn_client py_repr s w) = w.
Proof.
  induction s as [event rest IH|use resume IH|]; intros w H;
    cbn [consume tool_uses] in *.
  - destruct (text_of event) as [[data|]|e]; [| |reflexivity].
    + specialize (IH w H).
      destruct (consume remote cfn_client py_repr rest w) as [w' out].
      exact IH.
    + now apply IH.
  - destruct (run_tool remote cfn_client py_repr use w). discriminate H.
  - reflexivity.
Qed.

(** X16.  The entrypoint itself touches nothing: a run in which the agent uses
    no tool leaves the remote state and the calls sent as they were. *)
Theorem invoke_without_tools_is_silent :
  forall (payload : list (string * value)) (w : world remote),
    tool_uses remote cfn_client py_repr
      (stream_async system_prompt (payload_get payload "prompt")) w = [] ->
    fst (entry payload w) = w.
Proof.
  intros payload w H. unfold invoke. now apply consume_without_tools.
Qed.

End ProvisioningFurther.

Lemma status_stops_at_first_failure_witness :
  ProvisioningAgent.get_stack_status (list string)
    Doubles.cfn_client Doubles.py_repr "nonexistent-stack-xyz" Doubles.fresh
  = (ProvisioningAgent.World (list string) []
       [ProvisioningAgent.DescribeStacksCall "nonexistent-stack-xyz"],
     VDict [("success", VBool false);
            ("error", VStr "An error occurred (ValidationError): Stack with id nonexistent-stack-xyz does not exist");
            ("message", VStr ("Failed to get stack status: " ++ "An error occurred (ValidationError): Stack with id nonexistent-stack-xyz does not exist"))]).
Proof.
  exact (status_stops_at_first_failure (list string)
           Doubles.cfn_client Doubles.py_repr
           "nonexistent-stack-xyz" Doubles.fresh []
           (Doubles.not_found "nonexistent-stack-xyz")
           (Exn (OtherException "ClientError")
              "An error occurred (ValidationError): Stack with id nonexistent-stack-xyz does not exist")
           eq_refl eq_refl).
Defined.

Lemma status_repeatable_witness :
  ProvisioningAgent.remote_state (list string)
    (fst (ProvisioningAgent.get_stack_status (list string)
            Doubles.cfn_client Doubles.py_repr "demo-stack" Doubles.deployed))
  = ["demo-stack"]
  /\ snd (ProvisioningAgent.get_stack_status (list string)
            Doubles.cfn_client Doubles.py_repr "demo-stack"
            (fst (ProvisioningAgent.get_stack_status (list string)
                    Doubles.cfn_client Doubles.py_repr "demo-stack"
                    Doubles.deployed)))
     = snd (ProvisioningAgent.get_stack_status (list string)
              Doubles.cfn_client Doubles.py_repr "demo-stack" Doubles.deployed).
Proof.
  exact (status_repeatable (list string) Doubles.cfn_client Doubles.py_repr
           "demo-stack" Doubles.deployed _ _ eq_refl eq_refl).
Defined.

Lemma outputs_last_value_wins_witness :
  let outs :=
    [ {| ProvisioningAgent.Output.OutputKey := Some "BucketName";
         ProvisioningAgent.Output.OutputValue := Some "first" |};
      {| ProvisioningAgent.Output.OutputKey := Some "Url";
         ProvisioningAgent.Output.OutputValue := None |};
      {| ProvisioningAgent.Output.OutputKey := Some "BucketName";
         ProvisioningAgent.Output.OutputValue := Some "second" |} ] in
  NoDup (map fst [("BucketName", VStr "second"); ("Url", VStr "N/A")])
  /\ forall k,
       lookup k [("BucketName", VStr "second"); ("Url", VStr "N/A")] =
         option_map (fun o => VStr (match ProvisioningAgent.Output.OutputValue o with
                                    | Some x => x
                                    | None => "N/A"
                                    end))
                    (ProvisioningAgent.last_with_key k outs).
Proof.
  intros outs.
  exact (outputs_last_value_wins outs
           [("BucketName", VStr "second"); ("Url", VStr "N/A")] eq_refl).
Defined.

Lemma events_only_kept_are_formatted_witness :
  ProvisioningAgent.returns_events Doubles.py_repr
    (snd (ProvisioningAgent.get_stack_events unit
            Doubles.ragged_client Doubles.py_repr "demo-stack" (Some 1%Z)
            Doubles.nowhere))
    (firstn 1 Doubles.ragged_events)
  /\ List.length (ProvisioningAgent.event_list
       (snd (ProvisioningAgent.get_stack_events unit
               Doubles.ragged_client Doubles.py_repr "demo-stack" (Some 1%Z)
               Doubles.nowhere))) = 1
  /\ (forall n, Some 1%Z = Some n -> (0 < n)%Z ->
        List.length (ProvisioningAgent.event_list
          (snd (ProvisioningAgent.get_stack_events unit
                  Doubles.ragged_client Doubles.py_repr "demo-stack" (Some 1%Z)
                  Doubles.nowhere)))
        = Nat.min (Z.to_nat n) 2).
Proof.
  exact (events_only_kept_are_formatted unit
           Doubles.ragged_client Doubles.py_repr
           "demo-stack" (Some 1%Z) Doubles.nowhere tt
           {| ProvisioningAgent.DescribeStackEvents.StackEvents :=
                Some Doubles.ragged_events |}
           Doubles.ragged_events eq_refl eq_refl eq_refl).
Defined.

Lemma events_incomplete_entry_fails_witness :
  snd (ProvisioningAgent.get_stack_events unit
         Doubles.ragged_client Doubles.py_repr "demo-stack" None Doubles.nowhere)
  = VDict [("success", VBool false);
           ("error", VStr "'ResourceType'");
           ("message", VStr "Failed to get stack events: 'ResourceType'")]
  /\ ProvisioningAgent.event_list
       (snd (ProvisioningAgent.get_stack_events unit
               Doubles.ragged_client Doubles.py_repr "demo-stack" None
               Doubles.nowhere)) = [].
Proof.
  exact (events_incomplete_entry_fails unit
           Doubles.ragged_client Doubles.py_repr
           "demo-stack" None Doubles.nowhere tt
           {| ProvisioningAgent.DescribeStackEvents.StackEvents :=
                Some Doubles.ragged_events |}
           Doubles.ragged_events
           (firstn 1 Doubles.ragged_events) []
           {| ProvisioningAgent.StackEvent.Timestamp :=
                Some (Datetime "2024-01-01 00:00:01");
              ProvisioningAgent.StackEvent.ResourceType := None;
              ProvisioningAgent.StackEvent.LogicalResourceId := Some "demo-stack";
              ProvisioningAgent.StackEvent.ResourceStatus := Some "REVIEW_IN_PROGRESS";
              ProvisioningAgent.StackEvent.ResourceStatusReason := None |}
           "ResourceType" eq_refl eq_refl eq_refl eq_refl eq_refl).
Defined.

Lemma remote_validate_answer_witness :
  ProvisioningAgent.validate_cloudformation_template unit
    Doubles.ragged_client Doubles.minimal_template Doubles.nowhere
  = (ProvisioningAgent.World unit tt
       [ProvisioningAgent.ValidateTemplateCall Doubles.minimal_template],
     VDict [("valid", VBool true);
            ("description", VStr "No description");
            ("parameters", VList [VStr "BucketName"; VStr "Environment"]);
            ("capabilities", VList [VStr "CAPABILITY_IAM"]);
            ("message", VStr "Template is valid")]).
Proof.
  exact (remote_validate_answer unit Doubles.ragged_client
           Doubles.minimal_template Doubles.nowhere tt
           {| ProvisioningAgent.ValidateTemplate.Description := None;
              ProvisioningAgent.ValidateTemplate.Parameters := Some
                [ {| ProvisioningAgent.TemplateParameter.ParameterKey :=
                       Some "BucketName" |};
                  {| ProvisioningAgent.TemplateParameter.ParameterKey :=
                       Some "Environment" |} ];
              ProvisioningAgent.ValidateTemplate.Capabilities :=
                Some ["CAPABILITY_IAM"] |}
           ["BucketName"; "Environment"] eq_refl eq_refl).
Defined.

Lemma deploy_failure_after_submission_witness :
  ProvisioningAgent.deploy_cloudformation_stack (list string)
    Doubles.cfn_client Doubles.py_repr
    "demo-stack" Doubles.minimal_template None Doubles.deployed
  = (ProvisioningAgent.World (list string) ["demo-stack"]
       [ProvisioningAgent.CreateStackCall
          (ProvisioningAgent.create_stack_request Doubles.py_repr
             "demo-stack" Doubles.minimal_template None)],
     VDict [("success", VBool false);
            ("error", VStr "An error occurred (AlreadyExistsException): Stack [demo-stack] already exists");
            ("message", VStr ("Failed to deploy stack: " ++ "An error occurred (AlreadyExistsException): Stack [demo-stack] already exists"))]).
Proof.
  exact (deploy_failure_after_submission (list string)
           Doubles.cfn_client Doubles.py_repr
           "demo-stack" Doubles.minimal_template None Doubles.deployed
           ["demo-stack"]
           (Raise (Exn (OtherException "ClientError")
              "An error occurred (AlreadyExistsException): Stack [demo-stack] already exists"))
           (Exn (OtherException "ClientError")
              "An error occurred (AlreadyExistsException): Stack [demo-stack] already exists")
           eq_refl eq_refl).
Defined.

Lemma invoke_yields_text_parts_witness :
  ProvisioningAgent.invoke (list string)
    Doubles.cfn_client Doubles.py_repr Doubles.talking_agent
    [("prompt", VStr "Deploy demo-stack")] Doubles.fresh
  = (Doubles.fresh,
     ProvisioningAgent.Response ["Deploying "; "demo-stack"] None).
Proof.
  apply (invoke_yields_text_parts (list string)
           Doubles.cfn_client Doubles.py_repr Doubles.talking_agent
           [("prompt", VStr "Deploy demo-stack")] Doubles.fresh Doubles.talk).
  - reflexivity.
  - repeat constructor.
Defined.


Lemma invoke_without_tools_is_silent_witness :
  fst (ProvisioningAgent.invoke (list string)
         Doubles.cfn_client Doubles.py_repr Doubles.talking_agent
         [("prompt", VStr "Deploy demo-stack")] Doubles.deployed)
  = Doubles.deployed.
Proof.
  apply (invoke_without_tools_is_silent (list string)
           Doubles.cfn_client Doubles.py_repr Doubles.talking_agent).
  reflexivity.
Defined.

(* ================================================================== *)
(** ** Properties of the onboarding entrypoint *)
(* ================================================================== *)

Section OnboardingEntrypointProperties.

Import OnboardingEntrypoint.

Variable yaml_safe_load : string -> result value.
Variable json_loads : string -> result value.
Variable stream_async : string -> value -> stream.



End OnboardingEntrypointProperties.


(* ================================================================== *)
(** ** Properties of the orchestrator's tools *)
(* ================================================================== *)

Section OrchestratorProperties.

Import MWCAgent.

Variable remote : Type.
Variable invoke_agent_runtime :
  InvokeAgentRuntime.input -> remote -> remote * result InvokeAgentRuntime.output.
Variable ONBOARDING_AGENT_ARN : string.
Variable PROVISIONING_AGENT_ARN : string.
Variable json_dumps : value -> string.
Variable decode_utf8 : string -> result string.

Local Abbreviation onboarding :=
  (call_onboarding_agent remote invoke_agent_runtime ONBOARDING_AGENT_ARN
     json_dumps decode_utf8).
Local Abbreviation provisioning :=
  (call_provisioning_agent remote invoke_agent_runtime PROVISIONING_AGENT_ARN
     json_dumps decode_utf8).
Local Abbreviation request_for arn prompt :=
  {| InvokeAgentRuntime.agentRuntimeArn := arn;
     InvokeAgentRuntime.qualifier := "DEFAULT";
     InvokeAgentRuntime.payload :=
       encode_utf8 (json_dumps (VDict [("prompt", VStr prompt)])) |}.

(** X18.  A tool whose agent has no ARN configured does nothing: it invokes no
    runtime, logs nothing, and returns [success = False] with the name of
    the variable that is not set - and, unlike every other failure, no
    [message]. *)
Theorem call_agent_needs_arn :
  (ONBOARDING_AGENT_ARN = "" ->
   forall (architecture_description : string) (w : world remote),
     onboarding architecture_description w =
       (w, VDict [("success", VBool false);
                  ("error",
                    VStr "ONBOARDING_AGENT_ARN environment variable not set")])
     /\ field "message" (snd (onboarding architecture_description w)) = None)
  /\ (PROVISIONING_AGENT_ARN = "" ->
      forall (prompt : string) (w : world remote),
        provisioning prompt w =
          (w, VDict [("success", VBool false);
                     ("error",
                       VStr "PROVISIONING_AGENT_ARN environment variable not set")])
        /\ field "message" (snd (provisioning prompt w)) = None).
Proof.
  split; intros Harn text w.
  - unfold call_onboarding_agent. rewrite Harn. split; reflexivity.
  - unfold call_provisioning_agent. rewrite Harn. split; reflexivity.
Qed.



(** X20.  Whatever goes wrong after the ARN test - the invocation raises, the
    response has no 'body', the stream breaks, a chunk does not decode -
    the tool returns [success = False] with the text of the exception,
    writes one line to the error log, and the invocation stays sent. *)
Theorem call_agent_failure_is_logged :
  forall (w : world remote) (s : remote) (text : string)
         (r : result InvokeAgentRuntime.output) (e : exn),
    (response <- r ;;
     body <- ProvisioningAgent.subscript "body" (InvokeAgentRuntime.body response) ;;
     read_body decode_utf8 body "") = Raise e ->
    (ONBOARDING_AGENT_ARN <> "" ->
     invoke_agent_runtime (request_for ONBOARDING_AGENT_ARN text) (remote_state remote w)
       = (s, r) ->
     onboarding text w =
       (World remote s
          (invoked remote w ++ [request_for ONBOARDING_AGENT_ARN text])%list
          (error_log remote w ++ [("Error calling Onboarding Agent: " ++ exn_str e)%string])%list,
        VDict [("success", VBool false);
               ("error", VStr (exn_str e));
               ("message", VStr ("Failed to call Onboarding Agent: " ++ exn_str e))]))
    /\ (PROVISIONING_AGENT_ARN <> "" ->
        invoke_agent_runtime (request_for PROVISIONING_AGENT_ARN text)
          (remote_state remote w) = (s, r) ->
        provisioning text w =
          (World remote s
             (invoked remote w ++ [request_for PROVISIONING_AGENT_ARN text])%list
             (error_log remote w ++ [("Error calling Provisioning Agent: " ++ exn_str e)%string])%list,
           VDict [("success", VBool false);
                  ("error", VStr (exn_str e));
                  ("message",
                    VStr ("Failed to call Provisioning Agent: " ++ exn_str e))])).
Proof.
  intros w s text r e Hraise. split; intros Harn Hcall.
  - unfold call_onboarding_agent, call_body.
    destruct (String.eqb_spec ONBOARDING_AGENT_ARN ""); [now contradiction Harn|].
    rewrite Hcall, Hraise. reflexivity.
  - unfold call_provisioning_agent, call_body.
    destruct (String.eqb_spec PROVISIONING_AGENT_ARN ""); [now contradiction Harn|].
    rewrite Hcall, Hraise. reflexivity.
Qed.

Lemma read_body_broken (events : list Event.t) (e : exn) :
  forall (texts : list string) (result : string),
    ProvisioningAgent.mapM decode_utf8 (chunk_bytes events) = Return texts ->
    read_body decode_utf8 (broken_body events e) result = Raise e.
Proof.
  unfold broken_body.
  induction events as [|event events IH]; intros texts result H.
  - reflexivity.
  - cbn [fold_right read_body]. cbn [chunk_bytes flat_map] in H.
    destruct (Event.chunk event) as [chunk|]; [|now apply (IH texts)].
    destruct (Chunk.bytes chunk) as [b|]; [|now apply (IH texts)].
    cbn [app ProvisioningAgent.mapM] in H.
    destruct (decode_utf8 b) as [text|e']; [|discriminate H].
    cbn [bind] in *.
    destruct (ProvisioningAgent.mapM decode_utf8 _) as [rest|e'] eqn:Hrest;
      [|discriminate H].
    now apply (IH rest).
Qed.

(** X21.  Nothing partial is returned: when the stream breaks after some chunks
    were read, the onboarding tool fails with the stream's exception and
    its result has no [template], however much text had arrived. *)
Theorem broken_stream_returns_no_text :
  forall (w : world remote) (s : remote) (architecture_description : string)
         (response : InvokeAgentRuntime.output)
         (events : list Event.t) (texts : list string) (e : exn),
    ONBOARDING_AGENT_ARN <> "" ->
    invoke_agent_runtime (request_for ONBOARDING_AGENT_ARN architecture_description)
      (remote_state remote w) = (s, Return response) ->
    InvokeAgentRuntime.body response = Some (broken_body events e) ->
    ProvisioningAgent.mapM decode_utf8 (chunk_bytes events) = Return texts ->
    field "success" (snd (onboarding architecture_description w)) = Some (VBool false)
    /\ field "error" (snd (onboarding architecture_description w))
       = Some (VStr (exn_str e))
    /\ field "template" (snd (onboarding architecture_description w)) = None.
Proof.
  intros w s text response events texts e Harn Hcall Hbody Htexts.
  unfold call_onboarding_agent, call_body.
  destruct (String.eqb_spec ONBOARDING_AGENT_ARN ""); [now contradiction Harn|].
  rewrite Hcall. cbn [bind]. rewrite Hbody. cbn [ProvisioningAgent.subscript bind].
  rewrite (read_body_broken events e texts "" Htexts). repeat split.
Qed.

(** *** The orchestrator's entrypoint *)

Variable stream_async : string -> value -> stream.

Local Abbreviation run_tool' :=
  (run_tool remote invoke_agent_runtime ONBOARDING_AGENT_ARN
     PROVISIONING_AGENT_ARN json_dumps decode_utf8).
Local Abbreviation consume' :=
  (consume remote invoke_agent_runtime ONBOARDING_AGENT_ARN
     PROVISIONING_AGENT_ARN json_dumps decode_utf8).
Local Abbreviation tool_uses' :=
  (tool_uses remote invoke_agent_runtime ONBOARDING_AGENT_ARN
     PROVISIONING_AGENT_ARN json_dumps decode_utf8).
Local Abbreviation invocations :=
  (invocations_of ONBOARDING_AGENT_ARN PROVISIONING_AGENT_ARN json_dumps).

Lemma run_tool_invoked (use : tool_use) (w : world remote) :
  invoked remote (fst (run_tool' use w))
  = (invoked remote w ++ invocations [use])%list.
Proof.
  destruct use as [text|text]; cbn [run_tool invocations_of flat_map];
    rewrite app_nil_r.
  - unfold call_onboarding_agent, call_body.
    destruct (String.eqb ONBOARDING_AGENT_ARN ""); [now rewrite app_nil_r|].
    destruct (invoke_agent_runtime _ (remote_state remote w)) as [s [response|e]];
      cbn [bind]; [|reflexivity].
    destruct (ProvisioningAgent.subscript "body" _) as [body|e];
      cbn [bind]; [|reflexivity].
    destruct (read_body decode_utf8 body ""); reflexivity.
  - unfold call_provisioning_agent, call_body.
    destruct (String.eqb PROVISIONING_AGENT_ARN ""); [now rewrite app_nil_r|].
    destruct (invoke_agent_runtime _ (remote_state remote w)) as [s [response|e]];
      cbn [bind]; [|reflexivity].
    destruct (ProvisioningAgent.subscript "body" _) as [body|e];
      cbn [bind]; [|reflexivity].
    destruct (read_body decode_utf8 body ""); reflexivity.
Qed.

Lemma consume_invoked (s : stream) :
  forall w : world remote,
    invoked remote (fst (consume' s w))
    = (invoked remote w ++ invocations (tool_uses' s w))%list.
Proof.
  induction s as [event rest IH|use resume IH|]; intros w;
    cbn [consume tool_uses].
  - destruct (ProvisioningAgent.text_of event) as [[data|]|e].
    + rewrite <- IH. now destruct (consume' rest w).
    + apply IH.
    + cbn. now rewrite app_nil_r.
  - pose proof (run_tool_invoked use w) as Htool.
    destruct (run_tool' use w) as [w' r]. cbn [fst] in Htool.
    cbn [invocations_of flat_map] in Htool |- *.
    rewrite app_nil_r in Htool. rewrite IH, Htool, app_assoc. reflexivity.
  - cbn. now rewrite app_nil_r.
Qed.

(** X22.  The runtimes invoked during a run of the orchestrator are exactly those
    of the agent's tool calls, one for one and in their order, each call
    counting only if its agent has an ARN; with neither ARN set, no run
    invokes anything. *)
Theorem orchestrator_invocations_follow_the_agent :
  forall (payload : list (string * value)) (w : world remote),
    invoked remote
      (fst (invoke remote invoke_agent_runtime ONBOARDING_AGENT_ARN
              PROVISIONING_AGENT_ARN json_dumps decode_utf8 stream_async payload w))
    = (invoked remote w
       ++ invocations
            (tool_uses' (stream_async system_prompt
                           (ProvisioningAgent.payload_get payload "prompt")) w))%list
    /\ (ONBOARDING_AGENT_ARN = "" -> PROVISIONING_AGENT_ARN = "" ->
        invoked remote
          (fst (invoke remote invoke_agent_runtime ONBOARDING_AGENT_ARN
                  PROVISIONING_AGENT_ARN json_dumps decode_utf8 stream_async
                  payload w))
        = invoked remote w).
Proof.
  intros payload w. unfold invoke.
  split; [apply consume_invoked|]. intros H1 H2. rewrite consume_invoked.
  assert (Hnone : forall uses, invocations uses = []).
  { induction uses as [|use uses IH]; [reflexivity|].
    cbn [invocations_of flat_map]. fold (invocations uses). rewrite IH.
    destruct use; rewrite ?H1, ?H2; reflexivity. }
  now rewrite Hnone, app_nil_r.
Qed.

End OrchestratorProperties.

Lemma call_agent_needs_arn_witness :
  MWCAgent.call_onboarding_agent (list string) Doubles.invoke_agent_runtime ""
    Doubles.json_dumps Doubles.decode_utf8 "a bucket with versioning" Doubles.quiet
  = (Doubles.quiet,
     VDict [("success", VBool false);
            ("error", VStr "ONBOARDING_AGENT_ARN environment variable not set")])
  /\ MWCAgent.call_provisioning_agent (list string) Doubles.invoke_agent_runtime ""
       Doubles.json_dumps Doubles.decode_utf8 "Deploy this template" Doubles.quiet
     = (Doubles.quiet,
        VDict [("success", VBool false);
               ("error", VStr "PROVISIONING_AGENT_ARN environment variable not set")]).
Proof.
  destruct (call_agent_needs_arn (list string) Doubles.invoke_agent_runtime
              "" "" Doubles.json_dumps Doubles.decode_utf8) as [Honboarding Hprovisioning].
  split.
  - exact (proj1 (Honboarding eq_refl "a bucket with versioning" Doubles.quiet)).
  - exact (proj1 (Hprovisioning eq_refl "Deploy this template" Doubles.quiet)).
Defined.


Lemma call_agent_failure_is_logged_witness :
  MWCAgent.call_onboarding_agent (list string) Doubles.invoke_agent_runtime
    "arn:unknown" Doubles.json_dumps Doubles.decode_utf8 "a bucket" Doubles.quiet
  = (MWCAgent.World (list string) []
       [ {| MWCAgent.InvokeAgentRuntime.agentRuntimeArn := "arn:unknown";
            MWCAgent.InvokeAgentRuntime.qualifier := "DEFAULT";
            MWCAgent.InvokeAgentRuntime.payload :=
              Doubles.json_dumps (VDict [("prompt", VStr "a bucket")]) |} ]
       ["Error calling Onboarding Agent: An error occurred (ResourceNotFoundException): runtime not found"],
     VDict [("success", VBool false);
            ("error", VStr "An error occurred (ResourceNotFoundException): runtime not found");
            ("message", VStr "Failed to call Onboarding Agent: An error occurred (ResourceNotFoundException): runtime not found")])
  /\ MWCAgent.call_provisioning_agent (list string) Doubles.invoke_agent_runtime
       "arn:unknown" Doubles.json_dumps Doubles.decode_utf8 "a bucket" Doubles.quiet
     = (MWCAgent.World (list string) []
          [ {| MWCAgent.InvokeAgentRuntime.agentRuntimeArn := "arn:unknown";
               MWCAgent.InvokeAgentRuntime.qualifier := "DEFAULT";
               MWCAgent.InvokeAgentRuntime.payload :=
                 Doubles.json_dumps (VDict [("prompt", VStr "a bucket")]) |} ]
          ["Error calling Provisioning Agent: An error occurred (ResourceNotFoundException): runtime not found"],
        VDict [("success", VBool false);
               ("error", VStr "An error occurred (ResourceNotFoundException): runtime not found");
               ("message", VStr "Failed to call Provisioning Agent: An error occurred (ResourceNotFoundException): runtime not found")]).
Proof.
  destruct (call_agent_failure_is_logged (list string) Doubles.invoke_agent_runtime
              "arn:unknown" "arn:unknown" Doubles.json_dumps Doubles.decode_utf8
              Doubles.quiet [] "a bucket"
              (Raise (Exn (OtherException "ResourceNotFoundException")
                        "An error occurred (ResourceNotFoundException): runtime not found"))
              (Exn (OtherException "ResourceNotFoundException")
                 "An error occurred (ResourceNotFoundException): runtime not found")
              eq_refl) as [Honboarding Hprovisioning].
  split.
  - apply Honboarding; [discriminate|reflexivity].
  - apply Hprovisioning; [discriminate|reflexivity].
Defined.

Lemma broken_stream_returns_no_text_witness :
  let runtime := fun (request : MWCAgent.InvokeAgentRuntime.input) (u : unit) =>
    (u, Return {| MWCAgent.InvokeAgentRuntime.body :=
                    Some (MWCAgent.broken_body Doubles.answer_events
                            (Exn (OtherException "ConnectionError")
                               "Connection broken: IncompleteRead")) |}) in
  let r := snd (MWCAgent.call_onboarding_agent unit runtime Doubles.onboarding_arn
                  Doubles.json_dumps Doubles.decode_utf8 "a bucket"
                  (MWCAgent.World unit tt [] [])) in
  field "success" r = Some (VBool false)
  /\ field "error" r = Some (VStr "Connection broken: IncompleteRead")
  /\ field "template" r = None.
Proof.
  intros runtime r.
  refine (broken_stream_returns_no_text unit runtime Doubles.onboarding_arn
            Doubles.json_dumps Doubles.decode_utf8
            (MWCAgent.World unit tt [] []) tt "a bucket"
            {| MWCAgent.InvokeAgentRuntime.body :=
                 Some (MWCAgent.broken_body Doubles.answer_events
                         (Exn (OtherException "ConnectionError")
                            "Connection broken: IncompleteRead")) |}
            Doubles.answer_events
            ["Resources: "; "{Bucket: {Type: 'AWS::S3::Bucket'}}"]
            (Exn (OtherException "ConnectionError")
               "Connection broken: IncompleteRead")
            _ eq_refl eq_refl eq_refl).
  discriminate.
Defined.

Lemma orchestrator_invocations_follow_the_agent_witness :
  MWCAgent.invoked (list string)
    (fst (MWCAgent.invoke (list string) Doubles.invoke_agent_runtime "" ""
            Doubles.json_dumps Doubles.decode_utf8
            (fun _ _ =>
               MWCAgent.ToolUse (MWCAgent.UseOnboarding "a bucket")
                 (fun generated =>
                    MWCAgent.ToolUse (MWCAgent.UseProvisioning "Deploy it")
                      (fun _ => MWCAgent.StopIteration)))
            [("prompt", VStr "Host a bucket")] Doubles.quiet))
  = [].
Proof.
  exact (proj2 (orchestrator_invocations_follow_the_agent (list string)
                  Doubles.invoke_agent_runtime "" ""
                  Doubles.json_dumps Doubles.decode_utf8
                  (fun _ _ =>
                     MWCAgent.ToolUse (MWCAgent.UseOnboarding "a bucket")
                       (fun generated =>
                          MWCAgent.ToolUse (MWCAgent.UseProvisioning "Deploy it")
                            (fun _ => MWCAgent.StopIteration)))
                  [("prompt", VStr "Host a bucket")] Doubles.quiet)
           eq_refl eq_refl).
Defined.

(* ================================================================== *)
(** ** Two more properties: what the validator looks at, what is cut *)
(* ================================================================== *)

Section Closing.

Variable yaml_safe_load : string -> result value.
Variable json_loads : string -> result value.

(** X4.  Of a mapping the validator looks at 'Resources' and at nothing else:
    two texts that load to mappings with the same 'Resources' entry - or
    both without one - get the same result, whatever their other keys. *)
Theorem validate_looks_at_resources_only :
  forall (template1 template2 : string)
         (entries1 entries2 : list (string * value)),
    OnboardingAgent.parse_template yaml_safe_load json_loads template1
      = Return (VDict entries1) ->
    OnboardingAgent.parse_template yaml_safe_load json_loads template2
      = Return (VDict entries2) ->
    lookup "Resources" entries1 = lookup "Resources" entries2 ->
    OnboardingAgent.validate_cloudformation_template
      yaml_safe_load json_loads template1
    = OnboardingAgent.validate_cloudformation_template
        yaml_safe_load json_loads template2.
Proof.
  intros template1 template2 entries1 entries2 H1 H2 Hsame.
  rewrite (validate_dict _ _ _ _ H1), (validate_dict _ _ _ _ H2), Hsame.
  reflexivity.
Qed.

Variable remote : Type.
Variable cfn_client : ProvisioningAgent.client remote.
Variable py_repr : value -> string.

Lemma slice_to_prefix {A} (l : list A) (stop : Z) :
  exists rest, l = (ProvisioningAgent.slice_to l stop ++ rest)%list.
Proof.
  unfold ProvisioningAgent.slice_to.
  destruct (0 <=? stop)%Z; eexists; symmetry; apply firstn_skipn.
Qed.

(** X11.  Whatever the limit - positive, zero, negative or left out - the events
    returned are those of a leading part of the backend's list, in the
    backend's order: no entry is skipped, none is moved, and none is
    returned after one that was left out. *)
Theorem events_are_a_leading_part :
  forall (stack_name : string) (limit : option Z)
         (w : ProvisioningAgent.world remote) (s : remote)
         (response : ProvisioningAgent.DescribeStackEvents.output)
         (stack_events : list ProvisioningAgent.StackEvent.t),
    ProvisioningAgent.describe_stack_events remote cfn_client stack_name
      (ProvisioningAgent.remote_state remote w) = (s, Return response) ->
    ProvisioningAgent.DescribeStackEvents.StackEvents response = Some stack_events ->
    field "success"
      (snd (ProvisioningAgent.get_stack_events remote cfn_client py_repr
              stack_name limit w)) = Some (VBool true) ->
    exists kept rest,
      stack_events = (kept ++ rest)%list
      /\ ProvisioningAgent.returns_events py_repr
           (snd (ProvisioningAgent.get_stack_events remote cfn_client py_repr
                   stack_name limit w))
           kept.
Proof.
  intros stack_name limit w s response stack_events Hcall Hevents Hsuccess.
  set (stop := match limit with Some n => n | None => 10%Z end).
  destruct (slice_to_prefix stack_events stop) as [rest Hrest].
  exists (ProvisioningAgent.slice_to stack_events stop), rest.
  split; [exact Hrest|].
  revert Hsuccess.
  unfold ProvisioningAgent.get_stack_events, ProvisioningAgent.try_exceptM,
    ProvisioningAgent.events_body, ProvisioningAgent.bindM, ProvisioningAgent.call,
    ProvisioningAgent.lift, ProvisioningAgent.ret.
  rewrite Hcall, Hevents. cbn [ProvisioningAgent.subscript]. fold stop.
  generalize (ProvisioningAgent.slice_to stack_events stop). intros kept.
  destruct (ProvisioningAgent.mapM (ProvisioningAgent.format_event py_repr) kept)
    as [formatted|e] eqn:Hmap; cbn [snd]; [|intros H; discriminate H].
  intros _. exists formatted. split; [|reflexivity].
  revert formatted Hmap. induction kept as [|ev kept IH]; intros formatted Hmap.
  - injection Hmap as <-. constructor.
  - cbn [ProvisioningAgent.mapM] in Hmap.
    destruct (ProvisioningAgent.format_event py_repr ev) as [d|e] eqn:Hd;
      [|discriminate Hmap].
    cbn [bind] in Hmap.
    destruct (ProvisioningAgent.mapM (ProvisioningAgent.format_event py_repr) kept)
      as [ds|e]; [|discriminate Hmap].
    cbn [bind] in Hmap. injection Hmap as <-.
    constructor; [exact Hd|now apply IH].
Qed.

End Closing.

Lemma validate_looks_at_resources_only_witness :
  OnboardingAgent.validate_cloudformation_template
    Doubles.yaml_safe_load_more Doubles.json_loads "Description: no resources"
  = OnboardingAgent.validate_cloudformation_template
      Doubles.yaml_safe_load_more Doubles.json_loads
      "AWSTemplateFormatVersion: '2010-09-09'".
Proof.
  exact (validate_looks_at_resources_only
           Doubles.yaml_safe_load_more Doubles.json_loads
           "Description: no resources" "AWSTemplateFormatVersion: '2010-09-09'"
           [("Description", VStr "no resources")]
           [("AWSTemplateFormatVersion", VStr "2010-09-09")]
           eq_refl eq_refl eq_refl).
Defined.

Lemma events_are_a_leading_part_witness :
  exists kept rest,
    Doubles.stack_events = (kept ++ rest)%list
    /\ ProvisioningAgent.returns_events Doubles.py_repr
         (snd (ProvisioningAgent.get_stack_events (list string)
                 Doubles.cfn_client Doubles.py_repr "demo-stack" (Some (-2)%Z)
                 Doubles.deployed))
         kept.
Proof.
  exact (events_are_a_leading_part (list string)
           Doubles.cfn_client Doubles.py_repr
           "demo-stack" (Some (-2)%Z) Doubles.deployed ["demo-stack"]
           {| ProvisioningAgent.DescribeStackEvents.StackEvents :=
                Some Doubles.stack_events |}
           Doubles.stack_events eq_refl eq_refl eq_refl).
Defined.
